(** * smarthr-ui: MultiComboBox and FormGroup

    A shallow embedding of the two components

    - [src/components/ComboBox/MultiComboBox.tsx]
    - [src/components/FormGroup/FormGroup.tsx]

    A function component is embedded as what it computes during one render
    pass from its props and the state of that pass, and every event handler as
    a function from the props and state captured by the render pass to the
    list of actions the handler performs, in program order: the state updates
    it queues ([setIsFocused] and the like) and the calls it makes to the
    callbacks of the owner and to the hooks of the library.  [commit] applies
    the queued updates, which gives the state of the next render pass. *)

From Stdlib Require Import List String Ascii Bool Arith Lia.
Import ListNotations.
Local Open Scope string_scope.
Local Open Scope list_scope.
Set Warnings "-register-all".

(** ** The JavaScript operations the components use *)
Module Js.

(** [!!s] for a string [s]: only the empty string is falsy. *)
Definition truthy (s : string) : bool := negb (s =? "")%string.

(** [s.includes(search)] ([String.prototype.includes], from position 0). *)
Fixpoint includes (s search : string) : bool :=
  if String.prefix search s then true
  else match s with
       | EmptyString => false
       | String _ rest => includes rest search
       end.

(** [labels.includes(x)] on an array of strings. *)
Definition array_includes (labels : list string) (x : string) : bool :=
  existsb (fun l => (l =? x)%string) labels.

(** [xs.concat(x)] for a value [x] that is not itself an array. *)
Definition concat {A : Type} (xs : list A) (x : A) : list A := xs ++ [x].

(** [c && f()] used as a statement: the call is made when [c] is truthy. *)
Definition when {A : Type} (c : bool) (a : A) : list A :=
  if c then [a] else [].

(** [xs.map((x, index) => f x index)]. *)
Fixpoint mapi_from {A B : Type} (f : A -> nat -> B) (index : nat) (xs : list A)
  : list B :=
  match xs with
  | [] => []
  | x :: rest => f x index :: mapi_from f (S index) rest
  end.

Definition mapi {A B : Type} (f : A -> nat -> B) (xs : list A) : list B :=
  mapi_from f 0 xs.

End Js.

(** ** MultiComboBox *)
Module MultiComboBox.

(** [Item<T>] of [./types], with the optional [deletable] of a selected
    item. *)
Record Item (T : Type) : Type := {
  label : string;
  value : T;
  deletable : option bool
}.
Arguments label {T} _.
Arguments value {T} _.
Arguments deletable {T} _.

(** The props the logic of the component reads.  A callback prop is
    optional: the field tells whether the owner supplied it.
    [selectedItemsRef] is the identity of the array object handed in as
    [selectedItems]; the dependency list of an effect compares it, not the
    contents. *)
Record Props (T : Type) : Type := {
  items : list (Item T);
  selectedItems : list (Item T);
  selectedItemsRef : nat;
  disabled : bool;
  creatable : bool;
  controlledInputValue : option string;
  onChange : bool;
  onChangeInput : bool;
  onDelete : bool;
  onSelect : bool;
  onChangeSelected : bool;
  onFocus : bool;
  onBlur : bool
}.
Arguments items {T} _.
Arguments selectedItems {T} _.
Arguments selectedItemsRef {T} _.
Arguments disabled {T} _.
Arguments creatable {T} _.
Arguments controlledInputValue {T} _.
Arguments onChange {T} _.
Arguments onChangeInput {T} _.
Arguments onDelete {T} _.
Arguments onSelect {T} _.
Arguments onChangeSelected {T} _.
Arguments onFocus {T} _.
Arguments onBlur {T} _.

(** The three [useState] cells. *)
Record State : Type := {
  isFocused : bool;
  uncontrolledInputValue : string;
  isComposing : bool
}.

(** Calls a handler makes: the callbacks of the owner, the functions
    [useListBox] returns and the DOM. *)
Inductive Call (T : Type) : Type :=
| OnChange (v : string)
| OnChangeInput (v : string)
| OnDelete (item : Item T)
| OnSelect (item : Item T)
| OnChangeSelected (selected : list (Item T))
| OnFocus
| OnBlur
| ResetActiveOptionIndex
| HandleInputKeyDown (key : string)
| StopPropagation
| InputElementFocus
| SetTimeout (callback : list (Action T))
with Action (T : Type) : Type :=
| SetIsFocused (b : bool)
| SetUncontrolledInputValue (v : string)
| SetIsComposing (b : bool)
| Invoke (c : Call T).
Arguments OnChange {T} _.
Arguments OnChangeInput {T} _.
Arguments OnDelete {T} _.
Arguments OnSelect {T} _.
Arguments OnChangeSelected {T} _.
Arguments OnFocus {T}.
Arguments OnBlur {T}.
Arguments ResetActiveOptionIndex {T}.
Arguments HandleInputKeyDown {T} _.
Arguments StopPropagation {T}.
Arguments InputElementFocus {T}.
Arguments SetTimeout {T} _.
Arguments SetIsFocused {T} _.
Arguments SetUncontrolledInputValue {T} _.
Arguments SetIsComposing {T} _.
Arguments Invoke {T} _.

(** The values of the dependency list [[isFocused, isInputControlled,
    selectedItems]] of the first layout effect. *)
Record Deps : Type := {
  dep_isFocused : bool;
  dep_isInputControlled : bool;
  dep_selectedItems : nat
}.

(** What the component hands to [useListBox], callbacks apart. *)
Record ListBoxArgs (T : Type) : Type := {
  lb_items : list (Item T);
  lb_inputValue : string;
  lb_isExpanded : bool;
  lb_isAddable : bool;
  lb_isDuplicate : bool;
  lb_hasNoMatch : bool
}.
Arguments lb_items {T} _.
Arguments lb_inputValue {T} _.
Arguments lb_isExpanded {T} _.
Arguments lb_isAddable {T} _.
Arguments lb_isDuplicate {T} _.
Arguments lb_hasNoMatch {T} _.

Section Component.

Context {T : Type}.

(** [a === b] on values of [T]. *)
Variable strictEq : T -> T -> bool.

(** [convertMatchableString] of [./comboBoxHelper]. *)
Variable convertMatchableString : string -> string.

(** Whether [handleInputKeyDown] of [useListBox] stops the propagation of
    a keydown with the given key. *)
Variable handleInputKeyDownStops : string -> bool.

Variable p : Props T.

(** *** The render pass *)

Definition isInputControlled : bool :=
  match controlledInputValue p with
  | Some _ => true
  | None => false
  end.

Definition inputValue (s : State) : string :=
  match controlledInputValue p with
  | Some v => v
  | None => uncontrolledInputValue s
  end.

Definition selectedLabels : list string := map label (selectedItems p).

Definition filteredItems (s : State) : list (Item T) :=
  filter
    (fun item =>
       if Js.array_includes selectedLabels (label item) then false
       else if negb (Js.truthy (inputValue s)) then true
       else Js.includes (convertMatchableString (label item))
                        (convertMatchableString (inputValue s)))
    (items p).

Definition isDuplicate (s : State) : bool :=
  existsb (fun item => (label item =? inputValue s)%string) (items p).

Definition hasSelectableExactMatch (s : State) : bool :=
  existsb (fun item => (label item =? inputValue s)%string) (filteredItems s).

Definition useListBoxArgs (s : State) : ListBoxArgs T :=
  {| lb_items := filteredItems s;
     lb_inputValue := inputValue s;
     lb_isExpanded := isFocused s;
     lb_isAddable :=
       creatable p && Js.truthy (inputValue s) && negb (isDuplicate s);
     lb_isDuplicate :=
       creatable p && Js.truthy (inputValue s) && isDuplicate s
       && negb (hasSelectableExactMatch s);
     lb_hasNoMatch :=
       (negb (creatable p) && Nat.eqb (List.length (filteredItems s)) 0)
       || (creatable p && Nat.eqb (List.length (filteredItems s)) 0
           && negb (Js.truthy (inputValue s))) |}.

(** *** The handlers *)

(** [onSelect] as handed to [useListBox]. *)
Definition listBoxOnSelect (selected : Item T) : list (Action T) :=
  Js.when (onSelect p) (Invoke (OnSelect selected))
  ++ Js.when (onChangeSelected p)
       (Invoke (OnChangeSelected (Js.concat (selectedItems p) selected))).

Definition focus : list (Action T) :=
  Js.when (onFocus p) (Invoke OnFocus)
  ++ [SetIsFocused true; Invoke ResetActiveOptionIndex].

Definition blur (s : State) : list (Action T) :=
  if negb (isFocused s) then []
  else Js.when (onBlur p) (Invoke OnBlur) ++ [SetIsFocused false].

(** The callback of [useOuterClick]. *)
Definition outerClick (s : State) : list (Action T) := blur s.

(** [onClick] of the container; [onDeleteButton] is
    [hasParentElementByClassName(e.target, classNames.deleteButton)]. *)
Definition containerOnClick (onDeleteButton : bool) (s : State)
  : list (Action T) :=
  if negb onDeleteButton && negb (disabled p) && negb (isFocused s)
  then [Invoke (SetTimeout focus)]
  else [].

(** [onKeyDown] of the container. *)
Definition containerOnKeyDown (key : string) (s : State) : list (Action T) :=
  if (key =? "Escape")%string || (key =? "Esc")%string
  then Invoke StopPropagation :: blur s
  else [].

(** [onDelete] of the [MultiSelectedItem] rendered for [selectedItem]. *)
Definition selectedItemOnDelete (selectedItem : Item T) : list (Action T) :=
  Js.when (onDelete p) (Invoke (OnDelete selectedItem))
  ++ Js.when (onChangeSelected p)
       (Invoke
          (OnChangeSelected
             (filter
                (fun selected =>
                   negb (label selected =? label selectedItem)%string
                   || negb (strictEq (value selected) (value selectedItem)))
                (selectedItems p)))).

(** [onChange] of the input; [v] is [e.currentTarget.value]. *)
Definition inputOnChange (v : string) : list (Action T) :=
  Js.when (onChange p) (Invoke (OnChange v))
  ++ Js.when (onChangeInput p) (Invoke (OnChangeInput v))
  ++ Js.when (negb isInputControlled) (SetUncontrolledInputValue v).

Definition inputOnFocus (s : State) : list (Action T) :=
  if negb (isFocused s) then focus else [].

Definition inputOnCompositionStart : list (Action T) := [SetIsComposing true].
Definition inputOnCompositionEnd : list (Action T) := [SetIsComposing false].

(** [onKeyDown] of the input.  The second component tells whether the
    event goes on to the handlers of the ancestors: the handler itself
    never stops it, [handleInputKeyDown] may. *)
Definition inputOnKeyDown (key : string) (s : State)
  : list (Action T) * bool :=
  if isComposing s then ([], true)
  else if (key =? "Tab")%string then (blur s, true)
  else ([Invoke (HandleInputKeyDown key)],
        negb (handleInputKeyDownStops key)).

(** A keydown whose target is the input: the handler of the input runs,
    then, the event bubbling, the handler of the container, both on the
    state of the same render pass. *)
Definition keyDownOnInput (key : string) (s : State) : list (Action T) :=
  let (actions, bubbles) := inputOnKeyDown key s in
  actions ++ (if bubbles then containerOnKeyDown key s else []).

(** *** The layout effects *)

Definition depsOf (s : State) : Deps :=
  {| dep_isFocused := isFocused s;
     dep_isInputControlled := isInputControlled;
     dep_selectedItems := selectedItemsRef p |}.

Definition depsEqb (a b : Deps) : bool :=
  Bool.eqb (dep_isFocused a) (dep_isFocused b)
  && Bool.eqb (dep_isInputControlled a) (dep_isInputControlled b)
  && Nat.eqb (dep_selectedItems a) (dep_selectedItems b).

(** The body of the first layout effect; the input is mounted on every
    render pass, so [inputRef.current] is set. *)
Definition inputResetEffectBody (s : State) : list (Action T) :=
  Js.when (negb isInputControlled) (SetUncontrolledInputValue "")
  ++ Js.when (isFocused s) (Invoke InputElementFocus).

(** The first layout effect after a render pass: [prev] holds the
    dependencies of the previous pass, [None] on mount. *)
Definition inputResetEffect (prev : option Deps) (s : State)
  : list (Action T) :=
  match prev with
  | None => inputResetEffectBody s
  | Some d => if depsEqb d (depsOf s) then [] else inputResetEffectBody s
  end.

End Component.

(** *** Committing the queued state updates *)

Definition apply {T : Type} (s : State) (a : Action T) : State :=
  match a with
  | SetIsFocused b =>
      {| isFocused := b;
         uncontrolledInputValue := uncontrolledInputValue s;
         isComposing := isComposing s |}
  | SetUncontrolledInputValue v =>
      {| isFocused := isFocused s;
         uncontrolledInputValue := v;
         isComposing := isComposing s |}
  | SetIsComposing b =>
      {| isFocused := isFocused s;
         uncontrolledInputValue := uncontrolledInputValue s;
         isComposing := b |}
  | Invoke _ => s
  end.

Definition commit {T : Type} (s : State) (actions : list (Action T)) : State :=
  fold_left apply actions s.

(** The calls among the actions, in order. *)
Definition calls {T : Type} (actions : list (Action T)) : list (Call T) :=
  flat_map (fun a => match a with Invoke c => [c] | _ => [] end) actions.

Definition b2n (b : bool) : nat := if b then 1 else 0.

Definition isOnBlur {T : Type} (c : Call T) : bool :=
  match c with OnBlur => true | _ => false end.

(** How many times a handler calls [onBlur]. *)
Definition onBlurCalls {T : Type} (actions : list (Action T)) : nat :=
  List.length (filter isOnBlur (calls actions)).

(** *** The component as a state machine *)

(** What can happen to a mounted component.  [TimerFired] is the callback
    the click handler handed to [setTimeout]; [ListBoxSelect] is
    [useListBox] calling its [onSelect], [ItemDelete] a
    [MultiSelectedItem] calling its [onDelete]. *)
Inductive Event (T : Type) : Type :=
| Click (onDeleteButton : bool)
| TimerFired
| OuterClick
| InputFocus
| InputChange (v : string)
| CompositionStart
| CompositionEnd
| InputKeyDown (key : string)
| ContainerKeyDown (key : string)
| ListBoxSelect (selected : Item T)
| ItemDelete (selectedItem : Item T).
Arguments Click {T} _.
Arguments TimerFired {T}.
Arguments OuterClick {T}.
Arguments InputFocus {T}.
Arguments InputChange {T} _.
Arguments CompositionStart {T}.
Arguments CompositionEnd {T}.
Arguments InputKeyDown {T} _.
Arguments ContainerKeyDown {T} _.
Arguments ListBoxSelect {T} _.
Arguments ItemDelete {T} _.

Section Machine.

Context {T : Type}.
Variable strictEq : T -> T -> bool.
Variable handleInputKeyDownStops : string -> bool.

(** The handler an event runs, on the props and state of the current
    render pass. *)
Definition handle (p : Props T) (e : Event T) (s : State) : list (Action T) :=
  match e with
  | Click onDeleteButton => containerOnClick p onDeleteButton s
  | TimerFired => focus p
  | OuterClick => outerClick p s
  | InputFocus => inputOnFocus p s
  | InputChange v => inputOnChange p v
  | CompositionStart => inputOnCompositionStart
  | CompositionEnd => inputOnCompositionEnd
  | InputKeyDown key => keyDownOnInput handleInputKeyDownStops p key s
  | ContainerKeyDown key => containerOnKeyDown p key s
  | ListBoxSelect selected => listBoxOnSelect p selected
  | ItemDelete selectedItem => selectedItemOnDelete strictEq p selectedItem
  end.

Definition step (p : Props T) (e : Event T) (s : State) : State :=
  commit s (handle p e s).

(** One entry per event of a run: the state the event found, what its
    handler did and the state after the commit. *)
Record Step : Type := {
  before : State;
  actions : list (Action T);
  after : State
}.

(** The owner may hand in other props before every event. *)
Fixpoint run (s : State) (es : list (Props T * Event T)) : list Step :=
  match es with
  | [] => []
  | (p, e) :: rest =>
      {| before := s; actions := handle p e s; after := step p e s |}
      :: run (step p e s) rest
  end.

(** The state a run ends in. *)
Fixpoint finalState (s : State) (es : list (Props T * Event T)) : State :=
  match es with
  | [] => s
  | (p, e) :: rest => finalState (step p e s) rest
  end.

(** Calls of [onBlur] during a run. *)
Definition blurCallsOfRun (steps : list Step) : nat :=
  list_sum (map (fun st => onBlurCalls (actions st)) steps).

(** Focus sessions opened during a run: the steps that found the
    component blurred and left it focused. *)
Definition sessionsOpened (steps : list Step) : nat :=
  List.length
    (filter (fun st => negb (isFocused (before st)) && isFocused (after st))
       steps).

End Machine.

End MultiComboBox.

(** ** FormGroup *)
Module FormGroup.

(** The two colours of the theme the component reads. *)
Record Theme : Type := {
  TEXT_DISABLED : string;
  DANGER : string
}.

Inductive innerMarginType : Type := XXS | XS | S.

(** The value of a prop of an element. *)
Inductive PropValue : Type :=
| PUndefined
| PString (s : string)
| PTheme (t : Theme)
| PMargin (m : innerMarginType).

(** [ReactNode]; an element carries the name of its component, its key,
    its props, the later of two props of one name overriding the earlier,
    and its children. *)
Inductive ReactNode : Type :=
| RUndefined
| RNull
| RBoolean (b : bool)
| RNumber (n : nat)
| RString (s : string)
| RElement (type : string) (key : option nat)
    (props : list (string * PropValue)) (children : list ReactNode)
| RArray (nodes : list ReactNode).

(** [errorMessages?: string | string[]]. *)
Inductive ErrorMessages : Type :=
| ErrUndefined
| ErrString (s : string)
| ErrArray (messages : list string).

Record Props : Type := {
  title : string;
  titleType : option string;
  htmlFor : option string;
  labelId : option string;
  innerMargin : option innerMarginType;
  statusLabelProps : option (list (list (string * string)));
  helpMessage : ReactNode;
  errorMessages : ErrorMessages;
  disabled : option bool;
  className : option string;
  children : ReactNode;
  (* the rest, [...props] *)
  role : option string;
  rest : list (string * string)
}.

(** Truthiness of a node. *)
Definition truthy (n : ReactNode) : bool :=
  match n with
  | RUndefined | RNull => false
  | RBoolean b => b
  | RNumber n => negb (Nat.eqb n 0)
  | RString s => Js.truthy s
  | RElement _ _ _ _ | RArray _ => true
  end.

(** [a && b] on nodes. *)
Definition and_ (a b : ReactNode) : ReactNode := if truthy a then b else a.

Definition optString (o : option string) : PropValue :=
  match o with
  | Some s => PString s
  | None => PUndefined
  end.

(** The value of the prop [name] among [props]. *)
Definition getProp (name : string) (props : list (string * PropValue))
  : PropValue :=
  fold_left
    (fun found kv => if (fst kv =? name)%string then snd kv else found)
    props PUndefined.

(** [{...o}] for an object of string-valued entries. *)
Definition spread (o : list (string * string)) : list (string * PropValue) :=
  map (fun kv => (fst kv, PString (snd kv))) o.

Section Component.

(** What [useTheme()] returns. *)
Variable theme : Theme.

(** [useId] of [../../hooks/useId]. *)
Variable useId : option string -> string.

Variable p : Props.

Definition disabledClass : string :=
  match disabled p with
  | Some true => "disabled"
  | _ => ""
  end.

Definition managedLabelId : string := useId (labelId p).

Definition isRoleGroup : bool :=
  match role p with
  | Some r => (r =? "group")%string
  | None => false
  end.

(** The props left in [...props]. *)
Definition restProps : list (string * PropValue) :=
  match role p with
  | Some r => [("role", PString r)]
  | None => []
  end ++ spread (rest p).

Definition renderLabel : ReactNode :=
  RElement "label" None
    [("htmlFor", optString (htmlFor p)); ("id", PString managedLabelId)]
    [RElement "Title" None
       [("tag", PString "span"); ("type", optString (titleType p));
        ("themes", PTheme theme); ("className", PString disabledClass)]
       [RString (title p)]].

Definition renderStatusLabels : ReactNode :=
  let statusLabelProps :=
    match statusLabelProps p with Some l => l | None => [] end in
  if Nat.ltb 0 (List.length statusLabelProps)
  then RElement "StatusLabels" None [("themes", PTheme theme)]
         [RArray
            (Js.mapi
               (fun statusLabelProp index =>
                  RElement "StyledStatusLabel" (Some index)
                    (spread statusLabelProp ++ [("themes", PTheme theme)]) [])
               statusLabelProps)]
  else RBoolean false.

Definition renderHelpMessage : ReactNode :=
  and_ (helpMessage p)
    (RElement "HelpMessage" None [("themes", PTheme theme)] [helpMessage p]).

Definition renderErrorMessage (message : string) (index : nat) : ReactNode :=
  RElement "ErrorMessage" (Some index) [("themes", PTheme theme)]
    [RElement "ErrorIcon" None
       [("color",
         PString (match disabled p with
                  | Some true => TEXT_DISABLED theme
                  | _ => DANGER theme
                  end));
        ("themes", PTheme theme)] [];
     RElement "span" None [] [RString message]].

Definition renderErrorMessages : ReactNode :=
  match errorMessages p with
  | ErrUndefined => RUndefined
  | ErrString s =>
      and_ (RString s) (RArray (Js.mapi renderErrorMessage [s]))
  | ErrArray messages => RArray (Js.mapi renderErrorMessage messages)
  end.

Definition FormGroup : ReactNode :=
  RElement "Wrapper" None
    (restProps
     ++ [("className",
          PString
            ((match className p with Some c => c | None => "" end)
             ++ " " ++ disabledClass)%string);
         ("themes", PTheme theme);
         ("aria-labelledby",
          if isRoleGroup then PString managedLabelId else PUndefined)])
    [RElement "TitleWrapper" None [] [renderLabel; renderStatusLabels];
     renderHelpMessage;
     renderErrorMessages;
     RElement "Body" None
       [("themes", PTheme theme);
        ("margin",
         PMargin (match innerMargin p with Some m => m | None => XS end))]
       [children p]].

End Component.

(** *** Reading the output *)

(** The props of the outer element of a node. *)
Definition propsOf (n : ReactNode) : list (string * PropValue) :=
  match n with
  | RElement _ _ props _ => props
  | _ => []
  end.

Definition childrenOf (n : ReactNode) : list ReactNode :=
  match n with
  | RElement _ _ _ children => children
  | _ => []
  end.

(** The [label] element of a rendered [FormGroup]: the first child of the
    first child of the wrapper. *)
Definition labelOf (n : ReactNode) : ReactNode :=
  nth 0 (childrenOf (nth 0 (childrenOf n) RUndefined)) RUndefined.

(** The slot of the error messages: the third child of the wrapper. *)
Definition errorSlotOf (n : ReactNode) : ReactNode :=
  nth 2 (childrenOf n) RUndefined.

(** [p] with another [errorMessages]. *)
Definition withErrorMessages (e : ErrorMessages) (p : Props) : Props :=
  {| title := title p;
     titleType := titleType p;
     htmlFor := htmlFor p;
     labelId := labelId p;
     innerMargin := innerMargin p;
     statusLabelProps := statusLabelProps p;
     helpMessage := helpMessage p;
     errorMessages := e;
     disabled := disabled p;
     className := className p;
     children := children p;
     role := role p;
     rest := rest p |}.

End FormGroup.

(** ** The vocabulary of the specification *)
Module Spec.

Import MultiComboBox.

(** [sub] occurs in [s] as a substring. *)
Definition containsSubstring (s sub : string) : Prop :=
  exists pre post : string, s = (pre ++ sub ++ post)%string.

(** [next] is [prev] without one of its elements, the element [x], and
    with the others in their order. *)
Definition removesExactlyOne {A : Type} (prev : list A) (x : A) (next : list A)
  : Prop :=
  exists before after : list A,
    prev = before ++ x :: after /\ next = before ++ after.

(** The identity of an item: its label and its value. *)
Definition samePair {T : Type} (strictEq : T -> T -> bool) (a b : Item T)
  : bool :=
  (label a =? label b)%string && strictEq (value a) (value b).

(** [next] is [prev] without the elements [drop] holds of, and with the
    others in their order. *)
Inductive Without {A : Type} (drop : A -> bool) : list A -> list A -> Prop :=
| without_nil : Without drop [] []
| without_drop : forall x prev next,
    drop x = true -> Without drop prev next -> Without drop (x :: prev) next
| without_keep : forall x prev next,
    drop x = false -> Without drop prev next ->
    Without drop (x :: prev) (x :: next).

End Spec.

(** ** Sample components *)
Module Sample.

Import MultiComboBox.

Definition item (l : string) (v : nat) : Item nat :=
  {| label := l; value := v; deletable := None |}.

Definition apple : Item nat := item "apple" 1.
Definition banana : Item nat := item "banana" 2.
Definition cherry : Item nat := item "cherry" 3.

(** Lower case for the letters of ASCII, in the place of
    [convertMatchableString]. *)
Definition lowerAscii (c : ascii) : ascii :=
  let n := nat_of_ascii c in
  if Nat.leb 65 n && Nat.leb n 90 then ascii_of_nat (n + 32) else c.

Fixpoint lower (s : string) : string :=
  match s with
  | EmptyString => EmptyString
  | String c rest => String (lowerAscii c) (lower rest)
  end.

(** A list box whose key handler stops the arrow keys and Enter. *)
Definition stops (key : string) : bool :=
  (key =? "ArrowDown")%string || (key =? "ArrowUp")%string
  || (key =? "Enter")%string.

(** An uncontrolled combo box with every callback supplied. *)
Definition props (selected : list (Item nat)) (ref : nat) : Props nat :=
  {| items := [apple; banana; cherry];
     selectedItems := selected;
     selectedItemsRef := ref;
     MultiComboBox.disabled := false;
     creatable := true;
     controlledInputValue := None;
     onChange := true;
     onChangeInput := true;
     onDelete := true;
     onSelect := true;
     onChangeSelected := true;
     onFocus := true;
     onBlur := true |}.

(** The same with the input controlled by the owner. *)
Definition controlled (selected : list (Item nat)) (v : string) : Props nat :=
  {| items := [apple; banana; cherry];
     selectedItems := selected;
     selectedItemsRef := 0;
     MultiComboBox.disabled := false;
     creatable := true;
     controlledInputValue := Some v;
     onChange := true;
     onChangeInput := true;
     onDelete := true;
     onSelect := true;
     onChangeSelected := true;
     onFocus := true;
     onBlur := true |}.

Definition state (focused composing : bool) (text : string) : State :=
  {| isFocused := focused;
     uncontrolledInputValue := text;
     isComposing := composing |}.

Definition theme : FormGroup.Theme :=
  {| FormGroup.TEXT_DISABLED := "#c1bdb7"; FormGroup.DANGER := "#e01e5a" |}.

(** An id generator in the place of [useId]. *)
Definition useId (given : option string) : string :=
  match given with
  | Some id => id
  | None => "id-1"
  end.

Definition formGroup (r : option string) (e : FormGroup.ErrorMessages)
  : FormGroup.Props :=
  {| FormGroup.title := "Name";
     FormGroup.titleType := None;
     FormGroup.htmlFor := Some "name";
     FormGroup.labelId := None;
     FormGroup.innerMargin := None;
     FormGroup.statusLabelProps := None;
     FormGroup.helpMessage := FormGroup.RUndefined;
     FormGroup.errorMessages := e;
     FormGroup.disabled := None;
     FormGroup.className := None;
     FormGroup.children := FormGroup.RString "field";
     FormGroup.role := r;
     FormGroup.rest := [] |}.

End Sample.

(** ** MultiComboBox: the markup and the second layout effect *)
Module MultiComboBoxView.

Import MultiComboBox.

(** The colours of the theme [caretIconColor] reads. *)
Record Theme : Type := {
  TEXT_BLACK : string;
  TEXT_DISABLED : string;
  TEXT_GREY : string
}.

(** [useClassNames().multi], as far as the markup reads it. *)
Record ClassNames : Type := {
  cn_wrapper : string;
  cn_input : string;
  cn_placeholder : string
}.

(** The props that reach the markup only, after their defaults
    ([error = false], [placeholder = ''], [className = '']). *)
Record Markup : Type := {
  name : option string;
  error : bool;
  placeholder : string;
  selectedItemEllipsis : option bool;
  className : string
}.

(** The [li] of a selected item with its [MultiSelectedItem]. *)
Record Chip (T : Type) : Type := {
  chip_key : string;
  chip_item : Item T;
  chip_disabled : bool;
  chip_enableEllipsis : option bool
}.
Arguments chip_key {T} _.
Arguments chip_item {T} _.
Arguments chip_disabled {T} _.
Arguments chip_enableEllipsis {T} _.

(** The value of
    [selectedItems.length === 0 && placeholder && !isFocused && (<li>...</li>)]:
    [false], the empty string, or the [li] with the placeholder. *)
Inductive PlaceholderSlot : Type :=
| SlotFalse
| SlotString (s : string)
| SlotPlaceholder (className text : string).

(** What the component computes for its markup; the attributes that are
    constants, refs, handlers or come from [useListBox] are left out. *)
Record View (T : Type) : Type := {
  container_className : string;
  aria_expanded : bool;
  aria_invalid : option bool;
  aria_disabled : bool;
  chips : list (Chip T);
  inputWrapper_className : option string;
  input_name : option string;
  input_value : string;
  input_disabled : bool;
  input_className : string;
  placeholder_slot : PlaceholderSlot;
  caret_color : string
}.
Arguments container_className {T} _.
Arguments aria_expanded {T} _.
Arguments aria_invalid {T} _.
Arguments aria_disabled {T} _.
Arguments chips {T} _.
Arguments inputWrapper_className {T} _.
Arguments input_name {T} _.
Arguments input_value {T} _.
Arguments input_disabled {T} _.
Arguments input_className {T} _.
Arguments placeholder_slot {T} _.
Arguments caret_color {T} _.

(** The values of the dependency list [[calculateDropdownRect, isFocused,
    selectedItems]] of the second layout effect; functions and arrays are
    compared by identity. *)
Record RectDeps : Type := {
  rdep_calculateDropdownRect : nat;
  rdep_isFocused : bool;
  rdep_selectedItems : nat
}.

Section Component.

Context {T : Type}.
Variable theme : Theme.
Variable classNames : ClassNames.

(** The identity of the [calculateDropdownRect] that [useListBox] returned
    to this render pass. *)
Variable calculateDropdownRectRef : nat.

Variable p : Props T.
Variable m : Markup.

Definition caretIconColor (s : State) : string :=
  if isFocused s then TEXT_BLACK theme
  else if disabled p then TEXT_DISABLED theme
  else TEXT_GREY theme.

Definition renderPlaceholder (s : State) : PlaceholderSlot :=
  if negb (Nat.eqb (List.length (selectedItems p)) 0) then SlotFalse
  else if negb (Js.truthy (placeholder m)) then SlotString (placeholder m)
  else if negb (negb (isFocused s)) then SlotFalse
  else SlotPlaceholder (cn_placeholder classNames) (placeholder m).

Definition render (s : State) : View T :=
  {| container_className := (className m ++ " " ++ cn_wrapper classNames)%string;
     aria_expanded := isFocused s;
     aria_invalid := if error m then Some true else None;
     aria_disabled := disabled p;
     chips :=
       map (fun selectedItem =>
              {| chip_key := label selectedItem;
                 chip_item := selectedItem;
                 chip_disabled := disabled p;
                 chip_enableEllipsis := selectedItemEllipsis m |})
           (selectedItems p);
     inputWrapper_className := if isFocused s then None else Some "hidden";
     input_name := name m;
     input_value := inputValue p s;
     input_disabled := disabled p;
     input_className := cn_input classNames;
     placeholder_slot := renderPlaceholder s;
     caret_color := caretIconColor s |}.

Definition rectDepsOf (s : State) : RectDeps :=
  {| rdep_calculateDropdownRect := calculateDropdownRectRef;
     rdep_isFocused := isFocused s;
     rdep_selectedItems := selectedItemsRef p |}.

Definition rectDepsEqb (a b : RectDeps) : bool :=
  Nat.eqb (rdep_calculateDropdownRect a) (rdep_calculateDropdownRect b)
  && Bool.eqb (rdep_isFocused a) (rdep_isFocused b)
  && Nat.eqb (rdep_selectedItems a) (rdep_selectedItems b).

(** The second layout effect after a render pass: whether it calls
    [calculateDropdownRect(outerRef.current)]; the container is mounted on
    every render pass, so [outerRef.current] is set.  [prev] holds the
    dependencies of the previous pass, [None] on mount. *)
Definition dropdownRectEffect (prev : option RectDeps) (s : State) : bool :=
  match prev with
  | None => isFocused s
  | Some d => if rectDepsEqb d (rectDepsOf s) then false else isFocused s
  end.

End Component.

Definition isOnFocus {T : Type} (c : Call T) : bool :=
  match c with OnFocus => true | _ => false end.

(** How many times a handler calls [onFocus]. *)
Definition onFocusCalls {T : Type} (actions : list (Action T)) : nat :=
  List.length (filter isOnFocus (calls actions)).

(** The list a handler reports through [onChangeSelected], if it does. *)
Definition reportedSelection {T : Type} (actions : list (Action T))
  : option (list (Item T)) :=
  match
    flat_map (fun c => match c with OnChangeSelected l => [l] | _ => [] end)
      (calls actions)
  with
  | [] => None
  | l :: _ => Some l
  end.

End MultiComboBoxView.

(** ** FormGroup: the parts of the output *)
Module FormGroupParts.

Import FormGroup.

Definition keyOf (n : ReactNode) : option nat :=
  match n with
  | RElement _ key _ _ => key
  | _ => None
  end.

Definition typeOf (n : ReactNode) : option string :=
  match n with
  | RElement type _ _ _ => Some type
  | _ => None
  end.

(** The slot of the status labels: the second child of the first child of
    the wrapper. *)
Definition statusSlotOf (n : ReactNode) : ReactNode :=
  nth 1 (childrenOf (nth 0 (childrenOf n) RUndefined)) RUndefined.

(** The slot of the help message: the second child of the wrapper. *)
Definition helpSlotOf (n : ReactNode) : ReactNode :=
  nth 1 (childrenOf n) RUndefined.

(** The body: the fourth child of the wrapper. *)
Definition bodyOf (n : ReactNode) : ReactNode :=
  nth 3 (childrenOf n) RUndefined.

(** The [Title] inside the label. *)
Definition titleOf (n : ReactNode) : ReactNode :=
  nth 0 (childrenOf (labelOf n)) RUndefined.

(** The nodes of an array node. *)
Definition nodesOf (n : ReactNode) : list ReactNode :=
  match n with
  | RArray nodes => nodes
  | _ => []
  end.

(** The text an [ErrorMessage] element shows: the child of its [span]. *)
Definition errorTextOf (n : ReactNode) : ReactNode :=
  nth 0 (childrenOf (nth 1 (childrenOf n) RUndefined)) RUndefined.

(** The [ErrorIcon] of an [ErrorMessage] element. *)
Definition errorIconOf (n : ReactNode) : ReactNode :=
  nth 0 (childrenOf n) RUndefined.

(** The names the destructuring pattern of the component takes out of its
    props. *)
Definition destructured : list string :=
  ["title"; "titleType"; "htmlFor"; "labelId"; "innerMargin";
   "statusLabelProps"; "helpMessage"; "errorMessages"; "disabled";
   "className"; "children"].

(** No name occurs twice. *)
Fixpoint distinctNames (names : list string) : bool :=
  match names with
  | [] => true
  | name :: others =>
      negb (Js.array_includes others name) && distinctNames others
  end.

(** What [...props] can be: an object, so with every name once, that has
    none of the destructured names; [role], which [Props] holds apart, is
    not among [rest] either. *)
Definition isRestOfProps (p : Props) : bool :=
  distinctNames (map fst (rest p))
  && forallb
       (fun kv => negb (Js.array_includes ("role" :: destructured) (fst kv)))
       (rest p).

(** [p] with the defaults of the destructuring pattern written out, and
    [disabled] as the boolean it is tested as. *)
Definition withDefaults (p : Props) : Props :=
  {| title := title p;
     titleType := titleType p;
     htmlFor := htmlFor p;
     labelId := labelId p;
     innerMargin :=
       Some (match innerMargin p with Some m => m | None => XS end);
     statusLabelProps :=
       Some (match statusLabelProps p with Some l => l | None => [] end);
     helpMessage := helpMessage p;
     errorMessages := errorMessages p;
     disabled :=
       Some (match disabled p with Some b => b | None => false end);
     className := Some (match className p with Some c => c | None => "" end);
     children := children p;
     role := role p;
     rest := rest p |}.

End FormGroupParts.

(** ** More sample components *)
Module SampleView.

Import MultiComboBoxView.

Definition theme : Theme :=
  {| TEXT_BLACK := "#333"; TEXT_DISABLED := "#c1bdb7"; TEXT_GREY := "#706d65" |}.

Definition classNames : ClassNames :=
  {| cn_wrapper := "smarthr-ui-MultiComboBox";
     cn_input := "smarthr-ui-MultiComboBox-input";
     cn_placeholder := "smarthr-ui-MultiComboBox-placeholder" |}.

Definition markup (text : string) : Markup :=
  {| name := Some "fruit";
     error := false;
     placeholder := text;
     selectedItemEllipsis := None;
     className := "" |}.

(** A selected item whose value is not strictly equal to itself, as [NaN]
    is: the comparison of the sample answers [false] for the value [0]. *)
Definition nanEq (a b : nat) : bool :=
  negb (Nat.eqb a 0) && Nat.eqb a b.

(** A disabled form group with a class name, two status labels, two error
    messages and two further props of the caller. *)
Definition group (help : FormGroup.ReactNode) : FormGroup.Props :=
  {| FormGroup.title := "Name";
     FormGroup.titleType := None;
     FormGroup.htmlFor := Some "name";
     FormGroup.labelId := Some "name-label";
     FormGroup.innerMargin := None;
     FormGroup.statusLabelProps :=
       Some [[("type", "required"); ("themes", "mine")]; [("type", "done")]];
     FormGroup.helpMessage := help;
     FormGroup.errorMessages := FormGroup.ErrArray ["too short"; "not unique"];
     FormGroup.disabled := Some true;
     FormGroup.className := Some "mine";
     FormGroup.children := FormGroup.RString "field";
     FormGroup.role := Some "group";
     FormGroup.rest := [("data-id", "42"); ("id", "name-group")] |}.

End SampleView.

(** ** Facts about the JavaScript operations *)
Section JsFacts.

Lemma truthy_true (s : string) : Js.truthy s = true <-> s <> "".
Proof.
  unfold Js.truthy. rewrite negb_true_iff. apply String.eqb_neq.
Qed.

Lemma truthy_false (s : string) : Js.truthy s = false <-> s = "".
Proof.
  unfold Js.truthy. rewrite negb_false_iff. apply String.eqb_eq.
Qed.

Lemma prefix_append (sub s : string) :
  String.prefix sub s = true <-> exists post, s = (sub ++ post)%string.
Proof.
  revert s. induction sub as [|c sub IH]; intros s; simpl.
  - split; [intros _; exists s; reflexivity | intros _; now destruct s].
  - destruct s as [|d s].
    + split; [discriminate | intros [post H]; discriminate].
    + simpl. destruct (Ascii.ascii_dec c d) as [->|Hcd].
      * rewrite IH. split; intros [post H]; exists post.
        -- now rewrite H.
        -- now injection H.
      * split; [discriminate | intros [post H]].
        injection H as H1 H2. congruence.
Qed.

Lemma includes_contains (s sub : string) :
  Js.includes s sub = true <-> Spec.containsSubstring s sub.
Proof.
  unfold Spec.containsSubstring.
  induction s as [|c s IH]; cbn [Js.includes].
  - destruct (String.prefix sub "") eqn:E.
    + split; [intros _ | reflexivity].
      apply prefix_append in E. destruct E as [post E].
      exists "", post. exact E.
    + split; [discriminate | intros [pre [post H]]].
      destruct pre; [|discriminate]. simpl in H.
      assert (String.prefix sub "" = true) by (apply prefix_append; eauto).
      congruence.
  - destruct (String.prefix sub (String c s)) eqn:E.
    + split; [intros _ | reflexivity].
      apply prefix_append in E. destruct E as [post E].
      exists "", post. exact E.
    + rewrite IH. split.
      * intros [pre [post H]]. exists (String c pre), post.
        simpl. now rewrite H.
      * intros [pre [post H]]. destruct pre as [|d pre].
        -- simpl in H.
           assert (String.prefix sub (String c s) = true)
             by (apply prefix_append; eauto).
           congruence.
        -- simpl in H. injection H as _ H. eauto.
Qed.

Lemma array_includes_In (labels : list string) (x : string) :
  Js.array_includes labels x = true <-> In x labels.
Proof.
  unfold Js.array_includes. rewrite existsb_exists. split.
  - intros [l [Hin Heq]]. apply String.eqb_eq in Heq. now subst.
  - intros Hin. exists x. split; [exact Hin | apply String.eqb_refl].
Qed.

Lemma array_includes_not_In (labels : list string) (x : string) :
  Js.array_includes labels x = false <-> ~ In x labels.
Proof.
  rewrite <- array_includes_In. destruct (Js.array_includes labels x).
  - split; [discriminate | intros H; now elim H].
  - split; [discriminate | reflexivity].
Qed.

End JsFacts.

(** ** Filtering *)
Section Filtering.

Import MultiComboBox.

Context {T : Type}.
Variable convertMatchableString : string -> string.
Variable p : Props T.
Variable s : State.

Lemma filteredItems_In (item : Item T) :
  In item (filteredItems convertMatchableString p s) <->
  In item (items p)
  /\ ~ In (label item) (selectedLabels p)
  /\ (inputValue p s = ""
      \/ Spec.containsSubstring (convertMatchableString (label item))
           (convertMatchableString (inputValue p s))).
Proof.
  unfold filteredItems. rewrite filter_In.
  destruct (Js.array_includes (selectedLabels p) (label item)) eqn:Esel.
  - apply array_includes_In in Esel. split.
    + intros [_ H]. discriminate.
    + intros [_ [H _]]. contradiction.
  - apply array_includes_not_In in Esel.
    destruct (Js.truthy (inputValue p s)) eqn:Einp; simpl.
    + apply truthy_true in Einp. rewrite includes_contains.
      split.
      * intros [H1 H2]. auto.
      * intros [H1 [_ [H | H]]]; [contradiction | auto].
    + apply truthy_false in Einp. split.
      * intros [H1 _]. auto.
      * intros [H1 _]. auto.
Qed.

(** C1: no filtered candidate carries the label of a selected item,
    whatever the items, the selection and the input text are. *)
Theorem filtered_excludes_selected :
  forall item selected : Item T,
    In item (filteredItems convertMatchableString p s) ->
    In selected (selectedItems p) ->
    label item <> label selected.
Proof.
  intros item selected Hitem Hsel Heq.
  apply filteredItems_In in Hitem. destruct Hitem as [_ [Hnot _]].
  apply Hnot. unfold selectedLabels. rewrite Heq. now apply in_map.
Qed.

(** C2: with a non-empty input text an item is a candidate exactly when
    its label is not the label of an item of the selection and its
    normalized label contains the normalized input text as a substring;
    with the empty input text, exactly when its label is not the label of
    an item of the selection.  The candidates are taken from the items. *)
Theorem filtered_characterization :
  forall item : Item T,
    (inputValue p s <> "" ->
     (In item (filteredItems convertMatchableString p s) <->
      In item (items p)
      /\ ~ In (label item) (map label (selectedItems p))
      /\ Spec.containsSubstring (convertMatchableString (label item))
           (convertMatchableString (inputValue p s))))
    /\ (inputValue p s = "" ->
        (In item (filteredItems convertMatchableString p s) <->
         In item (items p)
         /\ ~ In (label item) (map label (selectedItems p)))).
Proof.
  intros item. split; intros Hinp; rewrite filteredItems_In;
    unfold selectedLabels.
  - split.
    + intros [H1 [H2 [H3 | H3]]]; [contradiction | auto].
    + intros [H1 [H2 H3]]. auto.
  - split.
    + intros [H1 [H2 _]]. auto.
    + intros [H1 H2]. auto.
Qed.

(** C7: the list box is told that the input text can be added exactly
    when [creatable] is set, the input text is not empty and no item has
    the input text as its label; it is told of a duplicate only when some
    item has the input text as its label. *)
Theorem listbox_flags :
  (lb_isAddable (useListBoxArgs convertMatchableString p s) = true <->
   creatable p = true
   /\ inputValue p s <> ""
   /\ ~ (exists item, In item (items p) /\ label item = inputValue p s))
  /\ (lb_isDuplicate (useListBoxArgs convertMatchableString p s) = true ->
      exists item, In item (items p) /\ label item = inputValue p s).
Proof.
  assert (Hdup : isDuplicate p s = true <->
                 exists item, In item (items p) /\ label item = inputValue p s).
  { unfold isDuplicate. rewrite existsb_exists.
    split; intros [item [Hin Heq]]; exists item; split; auto;
      now apply String.eqb_eq. }
  simpl. split.
  - rewrite !andb_true_iff, negb_true_iff, truthy_true, <- Hdup.
    destruct (isDuplicate p s); intuition congruence.
  - rewrite !andb_true_iff. intros [[[_ _] H] _]. now apply Hdup.
Qed.

End Filtering.

(** ** Changing the selection *)
Section Selection.

Import MultiComboBox.

Context {T : Type}.
Variable strictEq : T -> T -> bool.
Variable p : Props T.

Lemma filter_Without {A : Type} (drop : A -> bool) (l : list A) :
  Spec.Without drop l (filter (fun x => negb (drop x)) l).
Proof.
  induction l as [|x l IH]; simpl.
  - constructor.
  - destruct (drop x) eqn:E; simpl.
    + now apply Spec.without_drop.
    + now apply Spec.without_keep.
Qed.

Lemma filter_keeps_all {A : Type} (keep : A -> bool) (l : list A) :
  (forall x, In x l -> keep x = true) -> filter keep l = l.
Proof.
  induction l as [|x l IH]; simpl; intros H.
  - reflexivity.
  - rewrite (H x (or_introl eq_refl)). f_equal. apply IH.
    intros y Hy. apply H. now right.
Qed.

(** The test of the filter of [selectedItemOnDelete] is the negation of
    [samePair]. *)
Lemma deleteFilter_samePair (selectedItem selected : Item T) :
  negb (label selected =? label selectedItem)%string
  || negb (strictEq (value selected) (value selectedItem))
  = negb (Spec.samePair strictEq selected selectedItem).
Proof.
  unfold Spec.samePair. now rewrite negb_andb.
Qed.

(** C3: selecting a candidate calls [onSelect] with the item and then
    [onChangeSelected] with the previous selection followed by the item;
    the previous selection is a prefix of the new list, so nothing in it
    is changed or reordered, and no state of the component is updated. *)
Theorem select_appends_item :
  forall (selected : Item T) (s : State),
    onSelect p = true ->
    onChangeSelected p = true ->
    listBoxOnSelect p selected
    = [Invoke (OnSelect selected);
       Invoke (OnChangeSelected (selectedItems p ++ [selected]))]
    /\ firstn (List.length (selectedItems p)) (selectedItems p ++ [selected])
       = selectedItems p
    /\ skipn (List.length (selectedItems p)) (selectedItems p ++ [selected])
       = [selected]
    /\ commit s (listBoxOnSelect p selected) = s.
Proof.
  intros selected s Hsel Hchg. unfold listBoxOnSelect, Js.concat.
  rewrite Hsel, Hchg. simpl. repeat split.
  - rewrite firstn_app, Nat.sub_diag, firstn_all. simpl. apply app_nil_r.
  - rewrite skipn_app, Nat.sub_diag, skipn_all. reflexivity.
Qed.

(** C4, amended: deleting a selected item calls [onDelete] with the item
    and then [onChangeSelected] with the previous selection without every
    element that has both the label of the item and a value strictly
    equal to its value, the other elements kept in their order.  When the
    item is strictly equal to itself and no other element of the
    selection has its label and value, exactly that one element is
    removed. *)
Theorem delete_removes_matching :
  forall selectedItem : Item T,
    onDelete p = true ->
    onChangeSelected p = true ->
    exists next : list (Item T),
      selectedItemOnDelete strictEq p selectedItem
      = [Invoke (OnDelete selectedItem); Invoke (OnChangeSelected next)]
      /\ Spec.Without (fun selected => Spec.samePair strictEq selected selectedItem)
           (selectedItems p) next
      /\ (forall before after : list (Item T),
            selectedItems p = before ++ selectedItem :: after ->
            strictEq (value selectedItem) (value selectedItem) = true ->
            (forall other, In other (before ++ after) ->
                           Spec.samePair strictEq other selectedItem = false) ->
            Spec.removesExactlyOne (selectedItems p) selectedItem next
            /\ next = before ++ after).
Proof.
  intros selectedItem Hdel Hchg.
  unfold selectedItemOnDelete. rewrite Hdel, Hchg. simpl.
  eexists. split; [reflexivity|].
  rewrite (filter_ext _ _ (deleteFilter_samePair selectedItem)).
  split; [apply filter_Without|].
  intros before after Hsplit Hrefl Hothers.
  assert (Hnext : filter (fun x => negb (Spec.samePair strictEq x selectedItem))
                    (selectedItems p) = before ++ after).
  { rewrite Hsplit, filter_app. simpl.
    assert (Hself : Spec.samePair strictEq selectedItem selectedItem = true).
    { unfold Spec.samePair. now rewrite String.eqb_refl, Hrefl. }
    rewrite Hself. simpl.
    rewrite !filter_keeps_all; [reflexivity| |];
      intros x Hx; rewrite Hothers; auto; apply in_or_app; auto. }
  split; [|exact Hnext].
  exists before, after. split; [exact Hsplit | exact Hnext].
Qed.

End Selection.

(** ** Focus, blur and composition *)
Section Focus.

Import MultiComboBox.

Context {T : Type}.
Variable strictEq : T -> T -> bool.
Variable handleInputKeyDownStops : string -> bool.

Local Abbreviation handle := (handle strictEq handleInputKeyDownStops).
Local Abbreviation step := (step strictEq handleInputKeyDownStops).
Local Abbreviation run := (run strictEq handleInputKeyDownStops).
Local Abbreviation finalState := (finalState strictEq handleInputKeyDownStops).
Local Abbreviation keyDownOnInput := (keyDownOnInput handleInputKeyDownStops).

Lemma blur_blurred (p : Props T) (s : State) :
  isFocused s = false -> blur p s = [].
Proof.
  intros H. unfold blur. now rewrite H.
Qed.

Lemma blur_focused (p : Props T) (s : State) :
  isFocused s = true ->
  isFocused (commit s (blur p s)) = false
  /\ onBlurCalls (blur p s) = b2n (onBlur p).
Proof.
  intros H. unfold blur. rewrite H. simpl.
  destruct (onBlur p); simpl; auto.
Qed.

Lemma escape_key (key : string) :
  key = "Escape" \/ key = "Esc" ->
  ((key =? "Escape")%string || (key =? "Esc")%string) = true
  /\ (key =? "Tab")%string = false.
Proof.
  intros [-> | ->]; split; reflexivity.
Qed.

Lemma not_escape_key (key : string) :
  key <> "Escape" -> key <> "Esc" ->
  ((key =? "Escape")%string || (key =? "Esc")%string) = false.
Proof.
  intros H1 H2. apply orb_false_iff. split; now apply String.eqb_neq.
Qed.

(** A handler calls [onBlur] at most once, and only when it finds the
    component focused and leaves it blurred. *)
Lemma handle_blur_once (p : Props T) (e : Event T) (s : State) :
  onBlurCalls (handle p e s) = 0
  \/ (onBlurCalls (handle p e s) = 1
      /\ isFocused s = true
      /\ isFocused (commit s (handle p e s)) = false).
Proof.
  destruct s as [focused text composing].
  destruct e as [onDeleteButton| | | |v| | |key|key|selected|selectedItem];
    simpl.
  - unfold containerOnClick.
    destruct (negb onDeleteButton && negb (disabled p) && negb _); auto.
  - unfold focus. destruct (onFocus p); auto.
  - unfold outerClick, blur. simpl.
    destruct focused, (onBlur p); simpl; auto.
  - unfold inputOnFocus, focus. simpl.
    destruct focused, (onFocus p); simpl; auto.
  - unfold inputOnChange.
    destruct (onChange p), (onChangeInput p), (isInputControlled p); auto.
  - auto.
  - auto.
  - unfold MultiComboBox.keyDownOnInput, inputOnKeyDown, containerOnKeyDown, blur.
    simpl. destruct composing.
    + destruct ((key =? "Escape")%string || (key =? "Esc")%string);
        destruct focused, (onBlur p); simpl; auto.
    + destruct (key =? "Tab")%string eqn:Etab.
      * apply String.eqb_eq in Etab. subst key. simpl.
        destruct focused, (onBlur p); simpl; auto.
      * destruct (handleInputKeyDownStops key);
          destruct ((key =? "Escape")%string || (key =? "Esc")%string);
          destruct focused, (onBlur p); simpl; auto.
  - unfold containerOnKeyDown, blur. simpl.
    destruct ((key =? "Escape")%string || (key =? "Esc")%string);
      destruct focused, (onBlur p); simpl; auto.
  - unfold listBoxOnSelect.
    destruct (onSelect p), (onChangeSelected p); auto.
  - unfold selectedItemOnDelete.
    destruct (onDelete p), (onChangeSelected p); auto.
Qed.

(** Over a run the calls of [onBlur] are bounded by the focus sessions:
    the one the run may start in and the ones it opens. *)
Lemma run_blur_sessions (es : list (Props T * Event T)) :
  forall s : State,
    blurCallsOfRun (run s es) + b2n (isFocused (finalState s es))
    <= b2n (isFocused s) + sessionsOpened (run s es).
Proof.
  induction es as [|[p e] es IH]; intros s.
  - unfold blurCallsOfRun, sessionsOpened. simpl. lia.
  - specialize (IH (step p e s)).
    unfold blurCallsOfRun, sessionsOpened in *.
    cbn [MultiComboBox.run MultiComboBox.finalState map filter
         actions before after].
    change (list_sum (?a :: ?l)) with (a + list_sum l).
    set (later := list_sum _) in *.
    set (opened := List.length (filter _ (run (step p e s) es))) in *.
    destruct (handle_blur_once p e s) as [H0 | [H1 [Hs Hs']]].
    + rewrite H0.
      destruct (isFocused s), (isFocused (step p e s));
        cbn [negb andb b2n List.length] in *; lia.
    + rewrite H1. fold (step p e s) in Hs'. rewrite Hs, Hs' in *.
      cbn [negb andb b2n List.length] in *. lia.
Qed.

(** C5, amended: an Escape keydown that reaches the handler of the
    control (from the input it does during a composition, and otherwise
    unless the key handler of the list box stops it), or a Tab keydown on
    the input while no composition is in progress, takes the focused
    component to the blurred state and calls the supplied [onBlur] once;
    [blur] on a blurred component updates no state and makes no call; over
    any run [onBlur] is called at most once for each focus session. *)
Theorem escape_or_tab_blurs_once :
  (forall (p : Props T) (s : State) (key : string),
      isFocused s = true ->
      key = "Escape" \/ key = "Esc" ->
      isFocused (step p (ContainerKeyDown key) s) = false
      /\ onBlurCalls (handle p (ContainerKeyDown key) s) = b2n (onBlur p))
  /\ (forall (p : Props T) (s : State) (key : string),
         isFocused s = true ->
         key = "Escape" \/ key = "Esc" ->
         isComposing s = true \/ handleInputKeyDownStops key = false ->
         isFocused (step p (InputKeyDown key) s) = false
         /\ onBlurCalls (handle p (InputKeyDown key) s) = b2n (onBlur p))
  /\ (forall (p : Props T) (s : State),
         isFocused s = true ->
         isComposing s = false ->
         isFocused (step p (InputKeyDown "Tab") s) = false
         /\ onBlurCalls (handle p (InputKeyDown "Tab") s) = b2n (onBlur p))
  /\ (forall (p : Props T) (s : State),
         isFocused s = false ->
         blur p s = [] /\ commit s (blur p s) = s)
  /\ (forall (s : State) (es : list (Props T * Event T)),
         blurCallsOfRun (run s es)
         <= b2n (isFocused s) + sessionsOpened (run s es)).
Proof.
  split; [|split; [|split; [|split]]].
  - intros p s key Hs Hkey.
    destruct (escape_key key Hkey) as [Hesc _].
    unfold MultiComboBox.step. cbn [MultiComboBox.handle].
    unfold containerOnKeyDown. rewrite Hesc.
    destruct (blur_focused p s Hs) as [H1 H2].
    split; [exact H1 | exact H2].
  - intros p s key Hs Hkey Hbubbles.
    destruct (escape_key key Hkey) as [Hesc Htab].
    destruct (blur_focused p s Hs) as [H1 H2].
    unfold MultiComboBox.step. cbn [MultiComboBox.handle].
    unfold MultiComboBox.keyDownOnInput, inputOnKeyDown, containerOnKeyDown.
    rewrite Hesc, Htab.
    destruct (isComposing s) eqn:Ec.
    + split; [exact H1 | exact H2].
    + destruct Hbubbles as [Hc | Hstops]; [discriminate Hc|].
      rewrite Hstops. split; [exact H1 | exact H2].
  - intros p s Hs Hc.
    unfold MultiComboBox.step. cbn [MultiComboBox.handle].
    unfold MultiComboBox.keyDownOnInput, inputOnKeyDown. rewrite Hc.
    cbn. rewrite app_nil_r.
    apply (blur_focused p s Hs).
  - intros p s Hs. rewrite (blur_blurred p s Hs). split; reflexivity.
  - intros s es. pose proof (run_blur_sessions es s). lia.
Qed.

(** C8, amended: while a composition is in progress the keydown handler
    of the input does nothing, whatever the key: it updates no state and
    does not call the key handler of the list box.  For every key other
    than Escape the keydown changes nothing at all, so that Tab leaves
    the component focused; an Escape keydown still bubbles to the handler
    of the control, which blurs. *)
Theorem composing_keydown_ignored :
  forall (p : Props T) (s : State) (key : string),
    isComposing s = true ->
    inputOnKeyDown handleInputKeyDownStops p key s = ([], true)
    /\ (forall k, ~ In (HandleInputKeyDown k) (calls (keyDownOnInput p key s)))
    /\ (key <> "Escape" -> key <> "Esc" ->
        keyDownOnInput p key s = [] /\ step p (InputKeyDown key) s = s)
    /\ (isFocused s = true ->
        isFocused (step p (InputKeyDown "Tab") s) = true)
    /\ (key = "Escape" \/ key = "Esc" ->
        keyDownOnInput p key s = containerOnKeyDown p key s).
Proof.
  intros p s key Hc.
  assert (Hin : forall k, inputOnKeyDown handleInputKeyDownStops p k s
                          = ([], true)).
  { intros k. unfold inputOnKeyDown. now rewrite Hc. }
  assert (Hkd : forall k, keyDownOnInput p k s = containerOnKeyDown p k s).
  { intros k. unfold MultiComboBox.keyDownOnInput. now rewrite Hin. }
  split; [apply Hin|]. split; [|split; [|split]].
  - intros k. rewrite Hkd. unfold containerOnKeyDown, blur.
    destruct ((key =? "Escape")%string || (key =? "Esc")%string);
      destruct (isFocused s), (onBlur p); simpl; intuition discriminate.
  - intros H1 H2.
    assert (keyDownOnInput p key s = []) as Hnil.
    { rewrite Hkd. unfold containerOnKeyDown.
      now rewrite (not_escape_key key H1 H2). }
    split; [exact Hnil|].
    unfold MultiComboBox.step. cbn [MultiComboBox.handle]. now rewrite Hnil.
  - intros Hs. unfold MultiComboBox.step. cbn [MultiComboBox.handle].
    rewrite Hkd. exact Hs.
  - intros _. apply Hkd.
Qed.

End Focus.

(** ** The input text *)
Section InputText.

Import MultiComboBox.

Context {T : Type}.
Variable strictEq : T -> T -> bool.
Variable handleInputKeyDownStops : string -> bool.

Local Abbreviation step := (step strictEq handleInputKeyDownStops).

Lemma depsEqb_selectedItems (a b : Deps) :
  dep_selectedItems a <> dep_selectedItems b -> depsEqb a b = false.
Proof.
  intros H. unfold depsEqb. apply Nat.eqb_neq in H. rewrite H.
  apply andb_false_r.
Qed.

(** No handler touches the internal input text of a controlled input. *)
Lemma controlled_step_keeps_text (p : Props T) (e : Event T) (s : State) :
  isInputControlled p = true ->
  uncontrolledInputValue (step p e s) = uncontrolledInputValue s.
Proof.
  intros Hc. unfold MultiComboBox.step.
  destruct s as [focused text composing].
  destruct e as [onDeleteButton| | | |v| | |key|key|selected|selectedItem];
    simpl.
  - unfold containerOnClick.
    destruct (negb onDeleteButton && negb (disabled p) && negb _); auto.
  - unfold focus. destruct (onFocus p); auto.
  - unfold outerClick, blur. simpl. destruct focused, (onBlur p); auto.
  - unfold inputOnFocus, focus. simpl. destruct focused, (onFocus p); auto.
  - unfold inputOnChange. rewrite Hc.
    destruct (onChange p), (onChangeInput p); auto.
  - auto.
  - auto.
  - unfold keyDownOnInput, inputOnKeyDown, containerOnKeyDown, blur. simpl.
    destruct composing; [|destruct (key =? "Tab")%string;
                           [|destruct (handleInputKeyDownStops key)]];
      destruct ((key =? "Escape")%string || (key =? "Esc")%string);
      destruct focused, (onBlur p); auto.
  - unfold containerOnKeyDown, blur. simpl.
    destruct ((key =? "Escape")%string || (key =? "Esc")%string);
      destruct focused, (onBlur p); auto.
  - unfold listBoxOnSelect. destruct (onSelect p), (onChangeSelected p); auto.
  - unfold selectedItemOnDelete.
    destruct (onDelete p), (onChangeSelected p); auto.
Qed.

(** C6, amended: when no [inputValue] is supplied, the layout effect that
    follows a render pass with another [selectedItems] array, another by
    identity, sets the internal input text, and so the text the input
    shows, to the empty string; with the same array, the same focus and
    the input still uncontrolled the effect does not run, whatever the
    array holds by then.  When [inputValue] is supplied, the text the
    input shows is that prop in every state, and neither a handler nor
    the layout effect updates the internal text. *)
Theorem input_text_reset_or_controlled :
  (forall (p : Props T) (s : State) (prev : Deps),
      controlledInputValue p = None ->
      dep_selectedItems prev <> selectedItemsRef p ->
      uncontrolledInputValue (commit s (inputResetEffect p (Some prev) s)) = ""
      /\ inputValue p (commit s (inputResetEffect p (Some prev) s)) = "")
  /\ (forall (p : Props T) (v : string) (s : State),
         controlledInputValue p = Some v ->
         inputValue p s = v
         /\ (forall e : Event T,
                inputValue p (step p e s) = v
                /\ uncontrolledInputValue (step p e s)
                   = uncontrolledInputValue s)
         /\ (forall prev : option Deps,
                inputValue p (commit s (inputResetEffect p prev s)) = v
                /\ uncontrolledInputValue (commit s (inputResetEffect p prev s))
                   = uncontrolledInputValue s))
  /\ (forall (p : Props T) (s : State) (prev : Deps),
         dep_isFocused prev = isFocused s ->
         dep_isInputControlled prev = isInputControlled p ->
         dep_selectedItems prev = selectedItemsRef p ->
         inputResetEffect p (Some prev) s = []
         /\ commit s (inputResetEffect p (Some prev) s) = s).
Proof.
  split; [|split].
  - intros p s prev Hnone Href.
    assert (Hreset : uncontrolledInputValue
                       (commit s (inputResetEffect p (Some prev) s)) = "").
    { unfold inputResetEffect.
      rewrite (depsEqb_selectedItems prev (depsOf p s)) by exact Href.
      unfold inputResetEffectBody, isInputControlled. rewrite Hnone.
      destruct (isFocused s); reflexivity. }
    split; [exact Hreset|].
    unfold inputValue. rewrite Hnone. exact Hreset.
  - intros p v s Hsome.
    assert (Hshown : forall s', inputValue p s' = v).
    { intros s'. unfold inputValue. now rewrite Hsome. }
    assert (Hc : isInputControlled p = true).
    { unfold isInputControlled. now rewrite Hsome. }
    split; [apply Hshown|]. split.
    + intros e. split; [apply Hshown|].
      now apply controlled_step_keeps_text.
    + intros prev. split; [apply Hshown|].
      unfold inputResetEffect, inputResetEffectBody. rewrite Hc.
      destruct prev as [d|]; [destruct (depsEqb d (depsOf p s))|];
        destruct (isFocused s); reflexivity.
  - intros p s prev Hf Hc Hr.
    assert (Hsame : depsEqb prev (depsOf p s) = true).
    { unfold depsEqb. cbn [depsOf dep_isFocused dep_isInputControlled
                           dep_selectedItems].
      rewrite Hf, Hc, Hr. now rewrite !Bool.eqb_reflx, Nat.eqb_refl. }
    unfold inputResetEffect. rewrite Hsame. split; reflexivity.
Qed.

End InputText.

(** ** FormGroup *)
Section FormGroupFacts.

Import FormGroup.

Variable theme : Theme.
Variable useId : option string -> string.

Lemma getProp_last (name : string) (v : PropValue)
      (props : list (string * PropValue)) :
  getProp name (props ++ [(name, v)]) = v.
Proof.
  unfold getProp. rewrite fold_left_app. simpl.
  now rewrite String.eqb_refl.
Qed.

(** C9: the wrapper carries [aria-labelledby], with the managed label id
    as its value, exactly when the role handed in is ['group']; with any
    other role or none the prop is undefined; the [label] element has
    the managed id in every case. *)
Theorem aria_labelledby_iff_role_group :
  forall p : Props,
    (getProp "aria-labelledby" (propsOf (FormGroup theme useId p))
     = PString (managedLabelId useId p)
     <-> role p = Some "group")
    /\ (role p <> Some "group" ->
        getProp "aria-labelledby" (propsOf (FormGroup theme useId p))
        = PUndefined)
    /\ getProp "id" (propsOf (labelOf (FormGroup theme useId p)))
       = PString (managedLabelId useId p).
Proof.
  intros p.
  assert (Hprop : getProp "aria-labelledby" (propsOf (FormGroup theme useId p))
                  = if isRoleGroup p then PString (managedLabelId useId p)
                    else PUndefined).
  { unfold FormGroup. cbn [propsOf].
    change (?a ++ [?x; ?y; ?z]) with (a ++ ([x; y] ++ [z])).
    rewrite app_assoc. apply getProp_last. }
  assert (Hrole : isRoleGroup p = true <-> role p = Some "group").
  { unfold isRoleGroup. destruct (role p) as [r|].
    - rewrite String.eqb_eq. split; congruence.
    - split; discriminate. }
  rewrite Hprop. split; [|split].
  - rewrite <- Hrole. destruct (isRoleGroup p).
    + split; reflexivity.
    + split; discriminate.
  - intros Hnot.
    assert (isRoleGroup p = false) as ->; [|reflexivity].
    apply not_true_is_false. intros E. apply Hnot, Hrole, E.
  - reflexivity.
Qed.

(** C10, amended: for every non-empty string [s], [FormGroup] with
    [errorMessages] the string [s] renders what it renders with
    [errorMessages] the array of the one element [s]. *)
Theorem error_string_as_singleton :
  forall (p : Props) (s : string),
    s <> "" ->
    FormGroup theme useId (withErrorMessages (ErrString s) p)
    = FormGroup theme useId (withErrorMessages (ErrArray [s]) p).
Proof.
  intros p s Hs. unfold FormGroup. f_equal. f_equal. f_equal. f_equal.
  unfold renderErrorMessages. cbn [errorMessages withErrorMessages].
  unfold and_. cbn [truthy].
  apply truthy_true in Hs. rewrite Hs. reflexivity.
Qed.

End FormGroupFacts.

(** ** The components at work *)
Section Examples.

Import MultiComboBox.
Import Sample.

Local Abbreviation step := (step Nat.eqb stops).
Local Abbreviation handle := (handle Nat.eqb stops).

(** The example of the specification: nothing selected, nothing typed,
    every item is a candidate; selecting one reports the new list. *)
Example candidates_of_empty_input :
  filteredItems lower (props [] 0) (state true false "")
  = [apple; banana; cherry]
  /\ calls (listBoxOnSelect (props [] 0) apple)
     = [OnSelect apple; OnChangeSelected [apple]].
Proof. split; reflexivity. Qed.

Example candidates_fold_case :
  filteredItems lower (props [banana] 0) (state true false "AN") = [].
Proof. reflexivity. Qed.

Example candidates_match_substring :
  filteredItems lower (props [banana] 0) (state true false "RR") = [cherry].
Proof. reflexivity. Qed.

Lemma filtered_excludes_selected_witness :
  In apple (filteredItems lower (props [banana] 0) (state true false ""))
  /\ In banana (selectedItems (props [banana] 0))
  /\ label apple <> label banana.
Proof.
  assert (H1 : In apple
                 (filteredItems lower (props [banana] 0) (state true false "")))
    by (vm_compute; left; reflexivity).
  assert (H2 : In banana (selectedItems (props [banana] 0)))
    by (vm_compute; left; reflexivity).
  split; [exact H1 | split; [exact H2|]].
  exact (filtered_excludes_selected lower (props [banana] 0)
           (state true false "") apple banana H1 H2).
Defined.

Lemma filtered_characterization_witness :
  inputValue (props [banana] 0) (state true false "APP") <> ""
  /\ (In apple (filteredItems lower (props [banana] 0) (state true false "APP"))
      <-> In apple (items (props [banana] 0))
          /\ ~ In (label apple) (map label (selectedItems (props [banana] 0)))
          /\ Spec.containsSubstring (lower (label apple))
               (lower (inputValue (props [banana] 0) (state true false "APP"))))
  /\ inputValue (props [banana] 0) (state true false "") = ""
  /\ (In apple (filteredItems lower (props [banana] 0) (state true false ""))
      <-> In apple (items (props [banana] 0))
          /\ ~ In (label apple) (map label (selectedItems (props [banana] 0)))).
Proof.
  assert (H1 : inputValue (props [banana] 0) (state true false "APP") <> "")
    by (apply String.eqb_neq; reflexivity).
  assert (H2 : inputValue (props [banana] 0) (state true false "") = "")
    by reflexivity.
  split; [exact H1 | split; [|split; [exact H2|]]].
  - exact (proj1 (filtered_characterization lower (props [banana] 0)
                    (state true false "APP") apple) H1).
  - exact (proj2 (filtered_characterization lower (props [banana] 0)
                    (state true false "") apple) H2).
Defined.

Lemma listbox_flags_witness :
  lb_isAddable (useListBoxArgs lower (props [] 0) (state true false "kiwi"))
  = true
  /\ creatable (props [] 0) = true
  /\ inputValue (props [] 0) (state true false "kiwi") <> ""
  /\ (exists item, In item (items (props [] 0))
                   /\ label item = inputValue (props [banana] 0)
                                     (state true false "banana")).
Proof.
  assert (H1 : lb_isAddable
                 (useListBoxArgs lower (props [] 0) (state true false "kiwi"))
               = true) by reflexivity.
  assert (H2 : lb_isDuplicate
                 (useListBoxArgs lower (props [banana] 0)
                    (state true false "banana")) = true) by reflexivity.
  split; [exact H1|].
  pose proof (proj1 (proj1 (listbox_flags lower (props [] 0)
                              (state true false "kiwi"))) H1) as [Hc [Hi _]].
  split; [exact Hc | split; [exact Hi|]].
  exact (proj2 (listbox_flags lower (props [banana] 0)
                  (state true false "banana")) H2).
Defined.

Lemma select_appends_item_witness :
  onSelect (props [apple] 0) = true
  /\ onChangeSelected (props [apple] 0) = true
  /\ listBoxOnSelect (props [apple] 0) banana
     = [Invoke (OnSelect banana); Invoke (OnChangeSelected [apple; banana])].
Proof.
  split; [reflexivity | split; [reflexivity|]].
  exact (proj1 (select_appends_item (props [apple] 0) banana
                  (state true false "") eq_refl eq_refl)).
Defined.

(** Deleting an item of a selection that holds it twice removes both
    elements: the new list is not the previous list without one element. *)
Lemma delete_duplicate_counterexample :
  selectedItemOnDelete Nat.eqb (props [apple; apple] 0) apple
  = [Invoke (OnDelete apple); Invoke (OnChangeSelected [])]
  /\ ~ Spec.removesExactlyOne [apple; apple] apple [].
Proof.
  split; [reflexivity|].
  intros [before [after [Hprev Hnext]]].
  symmetry in Hnext. apply app_eq_nil in Hnext. destruct Hnext as [-> ->].
  discriminate Hprev.
Qed.

Lemma delete_removes_matching_witness :
  onDelete (props [apple; banana; cherry] 0) = true
  /\ onChangeSelected (props [apple; banana; cherry] 0) = true
  /\ exists next,
      selectedItemOnDelete Nat.eqb (props [apple; banana; cherry] 0) banana
      = [Invoke (OnDelete banana); Invoke (OnChangeSelected next)]
      /\ Spec.removesExactlyOne [apple; banana; cherry] banana next
      /\ next = [apple; cherry].
Proof.
  split; [reflexivity | split; [reflexivity|]].
  destruct (delete_removes_matching Nat.eqb (props [apple; banana; cherry] 0)
              banana eq_refl eq_refl) as [next [Hcalls [_ Hone]]].
  exists next. split; [exact Hcalls|].
  apply (Hone [apple] [cherry]).
  - reflexivity.
  - reflexivity.
  - intros other [<- | [<- | []]]; reflexivity.
Defined.

(** A Tab keydown on the input of a focused component, during a
    composition, leaves the component focused. *)
Lemma tab_while_composing_counterexample :
  isFocused (state true true "") = true
  /\ ~ (isFocused (state true true "") = true ->
        isFocused (step (props [] 0) (InputKeyDown "Tab") (state true true ""))
        = false).
Proof.
  split; [reflexivity|].
  intros H. specialize (H eq_refl). discriminate H.
Qed.

Lemma escape_or_tab_blurs_once_witness :
  isFocused (state true false "") = true
  /\ isComposing (state true false "") = false
  /\ isFocused (step (props [] 0) (ContainerKeyDown "Escape")
                  (state true false "")) = false
  /\ onBlurCalls (handle (props [] 0) (ContainerKeyDown "Escape")
                    (state true false "")) = 1
  /\ isFocused (step (props [] 0) (InputKeyDown "Tab") (state true false ""))
     = false
  /\ onBlurCalls (handle (props [] 0) (InputKeyDown "Tab")
                    (state true false "")) = 1
  /\ blur (props [] 0) (state false false "") = []
  /\ blurCallsOfRun
       (run Nat.eqb stops (state false false "")
          [(props [] 0, TimerFired);
           (props [] 0, InputKeyDown "Tab");
           (props [] 0, OuterClick);
           (props [] 0, ContainerKeyDown "Escape")])
     <= 0 + 1.
Proof.
  pose proof (escape_or_tab_blurs_once Nat.eqb stops)
    as [Hesc [_ [Htab [Hblur Hrun]]]].
  split; [reflexivity | split; [reflexivity|]].
  destruct (Hesc (props [] 0) (state true false "") "Escape" eq_refl
              (or_introl eq_refl)) as [H1 H2].
  destruct (Htab (props [] 0) (state true false "") eq_refl eq_refl)
    as [H3 H4].
  split; [exact H1 | split; [exact H2 | split; [exact H3 | split; [exact H4|]]]].
  split.
  - exact (proj1 (Hblur (props [] 0) (state false false "") eq_refl)).
  - exact (Hrun (state false false "")
             [(props [] 0, TimerFired);
              (props [] 0, InputKeyDown "Tab");
              (props [] 0, OuterClick);
              (props [] 0, ContainerKeyDown "Escape")]).
Defined.

(** An Escape keydown on the input of a focused component, during a
    composition, blurs the component. *)
Lemma escape_while_composing_counterexample :
  isComposing (state true true "") = true
  /\ isFocused (step (props [] 0) (InputKeyDown "Escape") (state true true ""))
     = false
  /\ ~ (isComposing (state true true "") = true ->
        step (props [] 0) (InputKeyDown "Escape") (state true true "")
        = state true true "").
Proof.
  split; [reflexivity | split; [reflexivity|]].
  intros H. specialize (H eq_refl). discriminate H.
Qed.

Lemma composing_keydown_ignored_witness :
  isComposing (state true true "a") = true
  /\ inputOnKeyDown stops (props [] 0) "ArrowDown" (state true true "a")
     = ([], true)
  /\ step (props [] 0) (InputKeyDown "ArrowDown") (state true true "a")
     = state true true "a"
  /\ isFocused (step (props [] 0) (InputKeyDown "Tab") (state true true "a"))
     = true.
Proof.
  split; [reflexivity|].
  destruct (composing_keydown_ignored Nat.eqb stops (props [] 0) (state true true "a")
              "ArrowDown" eq_refl) as [H1 [_ [H2 [H3 _]]]].
  split; [exact H1 | split].
  - apply H2; apply String.eqb_neq; reflexivity.
  - exact (H3 eq_refl).
Defined.

(** The owner changes the selection from nothing to [apple] in the array
    it handed in before: the array is the same by identity, the layout
    effect does not run and the typed text stays. *)
Lemma same_array_keeps_text_counterexample :
  controlledInputValue (props [apple] 0) = None
  /\ selectedItems (props [apple] 0) <> selectedItems (props [] 0)
  /\ uncontrolledInputValue
       (commit (state true false "ban")
          (inputResetEffect (props [apple] 0)
             (Some (depsOf (props [] 0) (state true false "ban")))
             (state true false "ban"))) = "ban"
  /\ ~ (selectedItems (props [apple] 0) <> selectedItems (props [] 0) ->
        uncontrolledInputValue
          (commit (state true false "ban")
             (inputResetEffect (props [apple] 0)
                (Some (depsOf (props [] 0) (state true false "ban")))
                (state true false "ban"))) = "").
Proof.
  assert (Hchanged : selectedItems (props [apple] 0)
                     <> selectedItems (props [] 0))
    by (intros H; discriminate H).
  split; [reflexivity | split; [exact Hchanged | split; [reflexivity|]]].
  intros H. specialize (H Hchanged). discriminate H.
Qed.

Lemma input_text_reset_or_controlled_witness :
  controlledInputValue (props [apple] 1) = None
  /\ 0 <> selectedItemsRef (props [apple] 1)
  /\ uncontrolledInputValue
       (commit (state true false "ban")
          (inputResetEffect (props [apple] 1)
             (Some (depsOf (props [] 0) (state true false "ban")))
             (state true false "ban"))) = ""
  /\ controlledInputValue (controlled [apple] "ban") = Some "ban"
  /\ inputValue (controlled [apple] "ban")
       (step (controlled [apple] "ban") (InputChange "bana")
          (state true false "")) = "ban"
  /\ inputResetEffect (props [apple] 0)
       (Some (depsOf (props [] 0) (state true false "ban")))
       (state true false "ban") = [].
Proof.
  pose proof (@input_text_reset_or_controlled nat Nat.eqb stops)
    as [Hreset [Hctl Hsame]].
  split; [reflexivity | split; [apply Nat.eqb_neq; reflexivity|]].
  split.
  - refine (proj1 (Hreset (props [apple] 1) (state true false "ban")
                     (depsOf (props [] 0) (state true false "ban")) eq_refl _)).
    apply Nat.eqb_neq. reflexivity.
  - split; [reflexivity|]. split.
    + destruct (Hctl (controlled [apple] "ban") "ban" (state true false "")
                  eq_refl) as [_ [Hstep _]].
      exact (proj1 (Hstep (InputChange "bana"))).
    + exact (proj1 (Hsame (props [apple] 0) (state true false "ban")
                      (depsOf (props [] 0) (state true false "ban"))
                      eq_refl eq_refl eq_refl)).
Defined.

(** With the empty string as [errorMessages] nothing is rendered in the
    place of the error messages; with the array of the empty string, one
    error message is. *)
Lemma empty_error_string_counterexample :
  FormGroup.errorSlotOf
    (FormGroup.FormGroup theme useId (formGroup None (FormGroup.ErrString "")))
  = FormGroup.RString ""
  /\ FormGroup.FormGroup theme useId
       (FormGroup.withErrorMessages (FormGroup.ErrString "")
          (formGroup None FormGroup.ErrUndefined))
     <> FormGroup.FormGroup theme useId
          (FormGroup.withErrorMessages (FormGroup.ErrArray [""])
             (formGroup None FormGroup.ErrUndefined)).
Proof.
  split; [reflexivity|]. intros H. discriminate H.
Qed.

Lemma error_string_as_singleton_witness :
  "required" <> ""
  /\ FormGroup.FormGroup theme useId
       (FormGroup.withErrorMessages (FormGroup.ErrString "required")
          (formGroup None FormGroup.ErrUndefined))
     = FormGroup.FormGroup theme useId
         (FormGroup.withErrorMessages (FormGroup.ErrArray ["required"])
            (formGroup None FormGroup.ErrUndefined)).
Proof.
  assert (H : "required" <> "") by (apply String.eqb_neq; reflexivity).
  split; [exact H|].
  exact (error_string_as_singleton theme useId
           (formGroup None FormGroup.ErrUndefined) "required" H).
Defined.

Lemma aria_labelledby_iff_role_group_witness :
  FormGroup.role (formGroup (Some "group") FormGroup.ErrUndefined)
  = Some "group"
  /\ FormGroup.getProp "aria-labelledby"
       (FormGroup.propsOf
          (FormGroup.FormGroup theme useId
             (formGroup (Some "group") FormGroup.ErrUndefined)))
     = FormGroup.PString "id-1"
  /\ FormGroup.role (formGroup (Some "radiogroup") FormGroup.ErrUndefined)
     <> Some "group"
  /\ FormGroup.getProp "aria-labelledby"
       (FormGroup.propsOf
          (FormGroup.FormGroup theme useId
             (formGroup (Some "radiogroup") FormGroup.ErrUndefined)))
     = FormGroup.PUndefined
  /\ FormGroup.getProp "id"
       (FormGroup.propsOf
          (FormGroup.labelOf
             (FormGroup.FormGroup theme useId
                (formGroup None FormGroup.ErrUndefined))))
     = FormGroup.PString "id-1".
Proof.
  assert (Hother : FormGroup.role
                     (formGroup (Some "radiogroup") FormGroup.ErrUndefined)
                   <> Some "group")
    by (intros H; discriminate H).
  split; [reflexivity | split; [|split; [exact Hother | split]]].
  - exact (proj2 (proj1 (aria_labelledby_iff_role_group theme useId
                           (formGroup (Some "group") FormGroup.ErrUndefined)))
             eq_refl).
  - exact (proj1 (proj2 (aria_labelledby_iff_role_group theme useId
                           (formGroup (Some "radiogroup")
                              FormGroup.ErrUndefined))) Hother).
  - exact (proj2 (proj2 (aria_labelledby_iff_role_group theme useId
                           (formGroup None FormGroup.ErrUndefined)))).
Defined.

End Examples.

(** ** More on filtering and on the flags of the list box *)
Section Candidates.

Import MultiComboBox.

Context {T : Type}.
Variable convertMatchableString : string -> string.
Variable p : Props T.
Variable s : State.

Lemma string_append_empty_r (x : string) : (x ++ "")%string = x.
Proof.
  induction x as [|c x IH]; simpl; [reflexivity | now rewrite IH].
Qed.

Lemma includes_refl (x : string) : Js.includes x x = true.
Proof.
  apply includes_contains. exists "", "". simpl.
  now rewrite string_append_empty_r.
Qed.

Lemma filter_nil_iff {A : Type} (f : A -> bool) (l : list A) :
  filter f l = [] <-> forall x, In x l -> f x = false.
Proof.
  induction l as [|a l IH]; simpl.
  - split; [intros _ x [] | reflexivity].
  - destruct (f a) eqn:E.
    + split; [discriminate | intros H].
      specialize (H a (or_introl eq_refl)). congruence.
    + rewrite IH. split.
      * intros H x [<- | Hx]; auto.
      * intros H x Hx. apply H. now right.
Qed.

(** X1: the candidates are the items with some of them left out, the
    others in the order the items have; no candidate is listed more often
    than the item is, and the list is not longer than the items. *)
Theorem candidates_in_item_order :
  (exists drop, Spec.Without drop (items p)
                  (filteredItems convertMatchableString p s))
  /\ (NoDup (items p) -> NoDup (filteredItems convertMatchableString p s))
  /\ List.length (filteredItems convertMatchableString p s)
     <= List.length (items p).
Proof.
  unfold filteredItems. split; [|split].
  - eexists (fun item => negb _).
    erewrite filter_ext; [apply filter_Without|].
    intros item. cbv beta. now rewrite negb_involutive.
  - apply NoDup_filter.
  - apply filter_length_le.
Qed.

(** X2: with an empty input text, when no item has the label of a selected
    item, in particular when nothing is selected, every item is a
    candidate. *)
Theorem candidates_all_items :
  inputValue p s = "" ->
  (forall item, In item (items p) -> ~ In (label item) (selectedLabels p)) ->
  filteredItems convertMatchableString p s = items p.
Proof.
  intros Hinp Hfree. unfold filteredItems. apply filter_keeps_all.
  intros item Hitem.
  apply Hfree, array_includes_not_In in Hitem. rewrite Hitem.
  apply truthy_false in Hinp. now rewrite Hinp.
Qed.

(** X3: the list box is told that nothing matches exactly when there is no
    candidate and either [creatable] is off or the input text is empty. *)
Theorem hasNoMatch_iff :
  lb_hasNoMatch (useListBoxArgs convertMatchableString p s) = true <->
  filteredItems convertMatchableString p s = []
  /\ (creatable p = false \/ inputValue p s = "").
Proof.
  simpl. rewrite <- truthy_false.
  destruct (filteredItems convertMatchableString p s) as [|c l]; simpl.
  - destruct (creatable p), (Js.truthy (inputValue p s)); simpl;
      intuition congruence.
  - destruct (creatable p); simpl;
      (split; [discriminate | intros [H _]; discriminate H]).
Qed.

(** X4: of the three flags handed to the list box, addable, duplicate and
    no match, no two hold together; when there is no candidate one of
    them holds. *)
Theorem listbox_flags_exclusive :
  lb_isAddable (useListBoxArgs convertMatchableString p s)
  && lb_isDuplicate (useListBoxArgs convertMatchableString p s) = false
  /\ lb_isAddable (useListBoxArgs convertMatchableString p s)
     && lb_hasNoMatch (useListBoxArgs convertMatchableString p s) = false
  /\ lb_isDuplicate (useListBoxArgs convertMatchableString p s)
     && lb_hasNoMatch (useListBoxArgs convertMatchableString p s) = false
  /\ (lb_items (useListBoxArgs convertMatchableString p s) = [] ->
      lb_isAddable (useListBoxArgs convertMatchableString p s)
      || lb_isDuplicate (useListBoxArgs convertMatchableString p s)
      || lb_hasNoMatch (useListBoxArgs convertMatchableString p s) = true).
Proof.
  simpl. unfold hasSelectableExactMatch.
  split; [|split; [|split]].
  - destruct (creatable p), (Js.truthy (inputValue p s)), (isDuplicate p s);
      reflexivity.
  - destruct (creatable p), (Js.truthy (inputValue p s)), (isDuplicate p s);
      simpl; rewrite ?andb_false_r; reflexivity.
  - destruct (creatable p), (Js.truthy (inputValue p s)), (isDuplicate p s);
      simpl; rewrite ?andb_false_r; reflexivity.
  - intros ->. simpl.
    destruct (creatable p), (Js.truthy (inputValue p s)), (isDuplicate p s);
      reflexivity.
Qed.

Lemma hasSelectableExactMatch_iff :
  inputValue p s <> "" ->
  (hasSelectableExactMatch convertMatchableString p s = true <->
   (exists item, In item (items p) /\ label item = inputValue p s)
   /\ ~ In (inputValue p s) (selectedLabels p)).
Proof.
  intros Hinp. unfold hasSelectableExactMatch. rewrite existsb_exists. split.
  - intros [item [Hin Heq]]. apply String.eqb_eq in Heq.
    apply filteredItems_In in Hin. destruct Hin as [Hitem [Hnot _]].
    rewrite <- Heq. eauto.
  - intros [[item [Hitem Heq]] Hnot]. exists item.
    split; [|now apply String.eqb_eq].
    apply filteredItems_In. split; [exact Hitem|]. split.
    + now rewrite Heq.
    + right. rewrite Heq. apply includes_contains, includes_refl.
Qed.

(** X5: the list box is told of a duplicate exactly when [creatable] is
    set and the non-empty input text is the label of an item and the label
    of a selected item: a new item of that name cannot be added, and the
    existing one is not among the candidates. *)
Theorem duplicate_flag_iff_selected :
  lb_isDuplicate (useListBoxArgs convertMatchableString p s) = true <->
  creatable p = true
  /\ inputValue p s <> ""
  /\ (exists item, In item (items p) /\ label item = inputValue p s)
  /\ In (inputValue p s) (selectedLabels p).
Proof.
  assert (Hdup : isDuplicate p s = true <->
                 exists item, In item (items p) /\ label item = inputValue p s).
  { unfold isDuplicate. rewrite existsb_exists.
    split; intros [item [Hin Heq]]; exists item; split; auto;
      now apply String.eqb_eq. }
  simpl. rewrite !andb_true_iff, negb_true_iff, truthy_true, Hdup. split.
  - intros [[[Hc Hinp] Hex] Hno]. repeat split; auto.
    destruct (in_dec String.string_dec (inputValue p s) (selectedLabels p))
      as [Hin | Hnot]; [exact Hin|].
    assert (hasSelectableExactMatch convertMatchableString p s = true)
      by (apply hasSelectableExactMatch_iff; auto).
    congruence.
  - intros [Hc [Hinp [Hex Hin]]]. repeat split; auto.
    apply not_true_is_false. intros Hyes.
    apply hasSelectableExactMatch_iff in Hyes; [|exact Hinp].
    destruct Hyes as [_ Hnot]. contradiction.
Qed.

End Candidates.

(** ** The owner feeding the reported selection back *)
Section Feedback.

Import MultiComboBox.
Import MultiComboBoxView.

Context {T : Type}.
Variable strictEq : T -> T -> bool.
Variable convertMatchableString : string -> string.

Local Abbreviation filteredItems := (filteredItems convertMatchableString).
Local Abbreviation selectedItemOnDelete := (selectedItemOnDelete strictEq).
Local Abbreviation samePair := (Spec.samePair strictEq).

Lemma reported_select (p : Props T) (item : Item T) :
  reportedSelection (listBoxOnSelect p item)
  = if onChangeSelected p then Some (selectedItems p ++ [item]) else None.
Proof.
  unfold listBoxOnSelect, Js.concat.
  destruct (onSelect p), (onChangeSelected p); reflexivity.
Qed.

Lemma reported_delete (p : Props T) (item : Item T) :
  reportedSelection (selectedItemOnDelete p item)
  = if onChangeSelected p
    then Some (filter (fun x => negb (samePair x item)) (selectedItems p))
    else None.
Proof.
  unfold MultiComboBox.selectedItemOnDelete.
  rewrite (filter_ext _ _ (deleteFilter_samePair strictEq item)).
  destruct (onDelete p), (onChangeSelected p); reflexivity.
Qed.

Lemma filter_and {A : Type} (f g : A -> bool) (l : list A) :
  filter g (filter f l) = filter (fun x => f x && g x) l.
Proof.
  induction l as [|a l IH]; simpl; [reflexivity|].
  destruct (f a); simpl; [destruct (g a)|]; now rewrite IH.
Qed.

Lemma array_includes_app (l : list string) (a x : string) :
  Js.array_includes (l ++ [a]) x = Js.array_includes l x || (a =? x)%string.
Proof.
  unfold Js.array_includes. rewrite existsb_app. simpl.
  now rewrite orb_false_r.
Qed.

(** X6: when the owner hands back the list that selecting a candidate
    reported, with the same items and the same input text, the candidates
    are the former candidates without those that have the label of the
    selected item, which so is no candidate any more. *)
Theorem select_feedback_candidates :
  forall (p p' : Props T) (s s' : State) (item : Item T),
    reportedSelection (listBoxOnSelect p item) = Some (selectedItems p') ->
    items p' = items p ->
    inputValue p' s' = inputValue p s ->
    filteredItems p' s'
    = filter (fun c => negb (label c =? label item)%string) (filteredItems p s)
    /\ ~ In item (filteredItems p' s').
Proof.
  intros p p' s s' item Hrep Hitems Hinp.
  rewrite reported_select in Hrep.
  destruct (onChangeSelected p); [|discriminate Hrep].
  injection Hrep as Hsel.
  assert (Heq : filteredItems p' s'
                = filter (fun c => negb (label c =? label item)%string)
                    (filteredItems p s)).
  { unfold MultiComboBox.filteredItems. rewrite filter_and, Hitems, Hinp.
    apply filter_ext. intros c.
    unfold selectedLabels. rewrite <- Hsel, map_app. simpl.
    rewrite array_includes_app, (String.eqb_sym (label item)).
    destruct (Js.array_includes (map label (selectedItems p)) (label c));
      simpl; [reflexivity|].
    destruct (label c =? label item)%string; simpl;
      [now rewrite andb_false_r | now rewrite andb_true_r]. }
  split; [exact Heq|].
  rewrite Heq, filter_In, String.eqb_refl. intros [_ H]. discriminate H.
Qed.

Lemma filteredItems_In_dec (p : Props T) (s : State) (c : Item T) :
  In c (filteredItems p s) <->
  In c (items p)
  /\ Js.array_includes (selectedLabels p) (label c) = false
  /\ (if negb (Js.truthy (inputValue p s)) then true
      else Js.includes (convertMatchableString (label c))
             (convertMatchableString (inputValue p s))) = true.
Proof.
  unfold MultiComboBox.filteredItems. rewrite filter_In.
  destruct (Js.array_includes (selectedLabels p) (label c)).
  - split; [intros [_ H]; discriminate H | intros [_ [H _]]; discriminate H].
  - intuition.
Qed.

(** X7: when the owner hands back the list that deleting a selected item
    reported, with the same items and the same input text, every former
    candidate is still a candidate, and a new candidate has the label of
    the deleted item. *)
Theorem delete_feedback_candidates :
  forall (p p' : Props T) (s s' : State) (selectedItem : Item T),
    reportedSelection (selectedItemOnDelete p selectedItem)
    = Some (selectedItems p') ->
    items p' = items p ->
    inputValue p' s' = inputValue p s ->
    (forall c, In c (filteredItems p s) -> In c (filteredItems p' s'))
    /\ (forall c, In c (filteredItems p' s') ->
                  In c (filteredItems p s) \/ label c = label selectedItem).
Proof.
  intros p p' s s' selectedItem Hrep Hitems Hinp.
  rewrite reported_delete in Hrep.
  destruct (onChangeSelected p); [|discriminate Hrep].
  injection Hrep as Hsel. split.
  - intros c Hc. apply filteredItems_In_dec in Hc.
    destruct Hc as [Hitem [Hfree Hmatch]].
    apply filteredItems_In_dec. rewrite Hitems, Hinp.
    split; [exact Hitem | split; [|exact Hmatch]].
    apply array_includes_not_In. apply array_includes_not_In in Hfree.
    intros Hin. apply Hfree. unfold selectedLabels in *.
    rewrite <- Hsel in Hin. apply in_map_iff in Hin.
    destruct Hin as [x [Hx Hin]]. apply filter_In in Hin.
    rewrite <- Hx. apply in_map. tauto.
  - intros c Hc. apply filteredItems_In_dec in Hc.
    rewrite Hitems, Hinp in Hc. destruct Hc as [Hitem [Hfree Hmatch]].
    destruct (Js.array_includes (selectedLabels p) (label c)) eqn:Eold.
    + right. apply array_includes_In in Eold.
      apply array_includes_not_In in Hfree.
      unfold selectedLabels in *. apply in_map_iff in Eold.
      destruct Eold as [x [Hx Hin]].
      destruct (samePair x selectedItem) eqn:Esame.
      * unfold Spec.samePair in Esame. apply andb_true_iff in Esame.
        destruct Esame as [Hl _]. apply String.eqb_eq in Hl. congruence.
      * exfalso. apply Hfree. rewrite <- Hsel, <- Hx. apply in_map.
        apply filter_In. rewrite Esame. auto.
    + left. apply filteredItems_In_dec. auto.
Qed.

(** X8: deleting the item that was just selected, from the list that the
    selection reported, reports the selection as it was before, when the
    value of the item is strictly equal to itself and no element of that
    selection has its label and value. *)
Theorem select_then_delete_round_trip :
  forall (p p' : Props T) (item : Item T),
    reportedSelection (listBoxOnSelect p item) = Some (selectedItems p') ->
    onChangeSelected p' = true ->
    strictEq (value item) (value item) = true ->
    (forall x, In x (selectedItems p) -> samePair x item = false) ->
    reportedSelection (selectedItemOnDelete p' item) = Some (selectedItems p).
Proof.
  intros p p' item Hrep Hchg Hrefl Hothers.
  rewrite reported_select in Hrep.
  destruct (onChangeSelected p); [|discriminate Hrep].
  injection Hrep as Hsel.
  rewrite reported_delete, Hchg, <- Hsel, filter_app. simpl.
  assert (Hself : samePair item item = true).
  { unfold Spec.samePair. now rewrite String.eqb_refl, Hrefl. }
  rewrite Hself. simpl. rewrite app_nil_r. f_equal.
  apply filter_keeps_all. intros x Hx. now rewrite Hothers.
Qed.

(** X9: deleting is idempotent: no element of the reported list has both
    the label of the deleted item and a value strictly equal to its
    value, so that deleting the same item from the list handed back
    reports that list again. *)
Theorem delete_idempotent :
  forall (p p' : Props T) (selectedItem : Item T),
    reportedSelection (selectedItemOnDelete p selectedItem)
    = Some (selectedItems p') ->
    onChangeSelected p' = true ->
    (forall x, In x (selectedItems p') -> samePair x selectedItem = false)
    /\ reportedSelection (selectedItemOnDelete p' selectedItem)
       = Some (selectedItems p').
Proof.
  intros p p' selectedItem Hrep Hchg.
  rewrite reported_delete in Hrep.
  destruct (onChangeSelected p); [|discriminate Hrep].
  injection Hrep as Hsel.
  assert (Hnone : forall x, In x (selectedItems p') ->
                            samePair x selectedItem = false).
  { intros x Hx. rewrite <- Hsel in Hx. apply filter_In in Hx.
    destruct Hx as [_ Hx]. now apply negb_true_iff in Hx. }
  split; [exact Hnone|].
  rewrite reported_delete, Hchg. f_equal.
  apply filter_keeps_all. intros x Hx. now rewrite Hnone.
Qed.

(** X10: an item whose value is not strictly equal to itself, as [NaN] is
    not, cannot be deleted: the reported list is the selection as it is,
    whatever else the selection holds. *)
Theorem delete_needs_reflexive_value :
  forall (p : Props T) (selectedItem : Item T),
    onChangeSelected p = true ->
    (forall v, strictEq v (value selectedItem) = false) ->
    reportedSelection (selectedItemOnDelete p selectedItem)
    = Some (selectedItems p).
Proof.
  intros p selectedItem Hchg Hnan.
  rewrite reported_delete, Hchg. f_equal.
  apply filter_keeps_all. intros x _.
  unfold Spec.samePair. now rewrite Hnan, andb_false_r.
Qed.

(** X11: the component does not store the selection: selecting a
    candidate and deleting a selected item update no state, whichever
    callbacks are supplied, and report no list when [onChangeSelected] is
    missing. *)
Theorem selection_is_not_stored :
  forall (stops : string -> bool) (p : Props T) (item : Item T) (s : State),
    step strictEq stops p (ListBoxSelect item) s = s
    /\ step strictEq stops p (ItemDelete item) s = s
    /\ (onChangeSelected p = false ->
        reportedSelection (listBoxOnSelect p item) = None
        /\ reportedSelection (selectedItemOnDelete p item) = None).
Proof.
  intros stops p item s. split; [|split].
  - unfold step. cbn [handle]. unfold listBoxOnSelect.
    destruct (onSelect p), (onChangeSelected p); reflexivity.
  - unfold step. cbn [handle]. unfold MultiComboBox.selectedItemOnDelete.
    destruct (onDelete p), (onChangeSelected p); reflexivity.
  - intros H. rewrite reported_select, reported_delete, H. auto.
Qed.

End Feedback.

(** ** The life of a mounted component *)
Section Lifecycle.

Import MultiComboBox.
Import MultiComboBoxView.

Context {T : Type}.
Variable strictEq : T -> T -> bool.
Variable handleInputKeyDownStops : string -> bool.

Local Abbreviation handle := (handle strictEq handleInputKeyDownStops).
Local Abbreviation step := (step strictEq handleInputKeyDownStops).

Lemma depsEqb_isFocused (a b : Deps) :
  dep_isFocused a <> dep_isFocused b -> depsEqb a b = false.
Proof.
  intros H. unfold depsEqb.
  destruct (dep_isFocused a), (dep_isFocused b); try reflexivity;
    now elim H.
Qed.

Lemma depsEqb_same (a b : Deps) :
  dep_isFocused a = dep_isFocused b ->
  dep_isInputControlled a = dep_isInputControlled b ->
  dep_selectedItems a = dep_selectedItems b ->
  depsEqb a b = true.
Proof.
  intros H1 H2 H3. unfold depsEqb. rewrite H1, H2, H3.
  now rewrite !Bool.eqb_reflx, Nat.eqb_refl.
Qed.

(** X12: typing into an uncontrolled input: the handler calls [onChange]
    and then [onChangeInput] with the typed text and nothing else, the
    input shows the typed text afterwards, focus and composition are as
    before, and the layout effect of the next render pass leaves the text
    alone when the owner hands in the same [selectedItems] array. *)
Theorem typing_uncontrolled :
  forall (p p' : Props T) (s : State) (v : string),
    controlledInputValue p = None ->
    calls (handle p (InputChange v) s)
    = Js.when (onChange p) (OnChange v)
      ++ Js.when (onChangeInput p) (OnChangeInput v)
    /\ inputValue p (step p (InputChange v) s) = v
    /\ isFocused (step p (InputChange v) s) = isFocused s
    /\ isComposing (step p (InputChange v) s) = isComposing s
    /\ (controlledInputValue p' = None ->
        selectedItemsRef p' = selectedItemsRef p ->
        inputResetEffect p' (Some (depsOf p s)) (step p (InputChange v) s) = []).
Proof.
  intros p p' s v Hnone.
  assert (Hu : isInputControlled p = false)
    by (unfold isInputControlled; now rewrite Hnone).
  unfold MultiComboBox.step. cbn [MultiComboBox.handle].
  unfold inputOnChange. rewrite Hu.
  destruct (onChange p), (onChangeInput p); simpl;
    (split; [reflexivity|]);
    (split; [unfold inputValue; now rewrite Hnone|]);
    (split; [reflexivity|]); (split; [reflexivity|]);
    intros Hnone' Href; unfold inputResetEffect;
    (rewrite depsEqb_same; [reflexivity | reflexivity | | ]);
    simpl; unfold isInputControlled; now rewrite ?Hnone, ?Hnone', ?Href.
Qed.

(** X13: an uncontrolled input loses its text whenever the focus changes:
    after an event that focuses or blurs the component, the layout effect
    of the next render pass sets the internal text to the empty string. *)
Theorem focus_change_clears_text :
  forall (p p' : Props T) (e : Event T) (s : State),
    controlledInputValue p' = None ->
    isFocused (step p e s) <> isFocused s ->
    inputValue p'
      (commit (step p e s)
         (inputResetEffect p' (Some (depsOf p s)) (step p e s))) = "".
Proof.
  intros p p' e s Hnone Hchange.
  unfold inputResetEffect. rewrite depsEqb_isFocused.
  - unfold inputResetEffectBody, isInputControlled, inputValue.
    rewrite Hnone. destruct (isFocused (step p e s)); reflexivity.
  - cbn [depsOf dep_isFocused]. congruence.
Qed.

(** X14: a click on a blurred component that is not disabled, away from
    the delete buttons, only schedules [focus]; when the timer fires the
    component is focused and [onFocus], if supplied, is called once; the
    layout effect then focuses the input element, and the focus event of
    the input, finding the component focused, makes no further call. *)
Theorem click_focuses_once :
  forall (p : Props T) (s : State),
    isFocused s = false ->
    disabled p = false ->
    handle p (Click false) s = [Invoke (SetTimeout (focus p))]
    /\ step p (Click false) s = s
    /\ isFocused (step p TimerFired s) = true
    /\ onFocusCalls (handle p TimerFired s) = b2n (onFocus p)
    /\ In (Invoke InputElementFocus)
         (inputResetEffect p (Some (depsOf p s)) (step p TimerFired s))
    /\ handle p InputFocus
         (commit (step p TimerFired s)
            (inputResetEffect p (Some (depsOf p s)) (step p TimerFired s)))
       = [].
Proof.
  intros p s Hs Hd.
  assert (Hclick : handle p (Click false) s = [Invoke (SetTimeout (focus p))]).
  { cbn [MultiComboBox.handle]. unfold containerOnClick.
    now rewrite Hs, Hd. }
  assert (Hfocused : isFocused (step p TimerFired s) = true).
  { unfold MultiComboBox.step. cbn [MultiComboBox.handle]. unfold focus.
    destruct (onFocus p); reflexivity. }
  assert (Heffect : inputResetEffect p (Some (depsOf p s)) (step p TimerFired s)
                    = inputResetEffectBody p (step p TimerFired s)).
  { unfold inputResetEffect. rewrite depsEqb_isFocused; [reflexivity|].
    cbn [depsOf dep_isFocused]. rewrite Hs, Hfocused. discriminate. }
  split; [exact Hclick|]. split; [|split; [exact Hfocused|split; [|split]]].
  - unfold MultiComboBox.step. now rewrite Hclick.
  - cbn [MultiComboBox.handle]. unfold focus.
    destruct (onFocus p); reflexivity.
  - rewrite Heffect. unfold inputResetEffectBody. rewrite Hfocused.
    apply in_or_app. right. now left.
  - rewrite Heffect. cbn [MultiComboBox.handle]. unfold inputOnFocus.
    assert (Hstill : isFocused
                       (commit (step p TimerFired s)
                          (inputResetEffectBody p (step p TimerFired s)))
                     = true).
    { unfold inputResetEffectBody. rewrite Hfocused.
      destruct (isInputControlled p); simpl; exact Hfocused. }
    now rewrite Hstill.
Qed.

(** X15: a click does nothing at all exactly when it is on a delete
    button, or the component is disabled, or it is focused already; no
    click updates the state itself. *)
Theorem click_ignored_iff :
  forall (p : Props T) (onDeleteButton : bool) (s : State),
    (containerOnClick p onDeleteButton s = [] <->
     onDeleteButton = true \/ disabled p = true \/ isFocused s = true)
    /\ step p (Click onDeleteButton) s = s.
Proof.
  intros p onDeleteButton s. unfold MultiComboBox.step.
  cbn [MultiComboBox.handle]. unfold containerOnClick.
  destruct onDeleteButton, (disabled p), (isFocused s); simpl;
    (split; [|reflexivity]); split; auto; try discriminate;
    intros [H | [H | H]]; discriminate H.
Qed.

(** X16: only the composition events change the composition flag.  So a
    component that is blurred while a composition is in progress and is
    focused again still ignores Tab; after [compositionend] Tab blurs. *)
Theorem composition_flag_survives_blur :
  (forall (p : Props T) (e : Event T) (s : State),
      isComposing (step p e s)
      = match e with
        | CompositionStart => true
        | CompositionEnd => false
        | _ => isComposing s
        end)
  /\ (forall (p : Props T) (s : State),
         isFocused s = true ->
         isComposing s = true ->
         isFocused (step p OuterClick s) = false
         /\ isFocused (step p TimerFired (step p OuterClick s)) = true
         /\ step p (InputKeyDown "Tab") (step p TimerFired (step p OuterClick s))
            = step p TimerFired (step p OuterClick s)
         /\ isFocused
              (step p (InputKeyDown "Tab")
                 (step p CompositionEnd
                    (step p TimerFired (step p OuterClick s)))) = false).
Proof.
  split.
  - intros p e s. unfold MultiComboBox.step.
    destruct s as [focused text composing].
    destruct e as [onDeleteButton| | | |v| | |key|key|selected|selectedItem];
      simpl.
    + unfold containerOnClick.
      destruct (negb onDeleteButton && negb (disabled p) && negb _); auto.
    + unfold focus. destruct (onFocus p); auto.
    + unfold outerClick, blur. simpl. destruct focused, (onBlur p); auto.
    + unfold inputOnFocus, focus. simpl. destruct focused, (onFocus p); auto.
    + unfold inputOnChange.
      destruct (onChange p), (onChangeInput p), (isInputControlled p); auto.
    + auto.
    + auto.
    + unfold keyDownOnInput, inputOnKeyDown, containerOnKeyDown, blur. simpl.
      destruct composing; [|destruct (key =? "Tab")%string;
                             [|destruct (handleInputKeyDownStops key)]];
        destruct ((key =? "Escape")%string || (key =? "Esc")%string);
        destruct focused, (onBlur p); auto.
    + unfold containerOnKeyDown, blur. simpl.
      destruct ((key =? "Escape")%string || (key =? "Esc")%string);
        destruct focused, (onBlur p); auto.
    + unfold listBoxOnSelect. destruct (onSelect p), (onChangeSelected p); auto.
    + unfold MultiComboBox.selectedItemOnDelete.
      destruct (onDelete p), (onChangeSelected p); auto.
  - intros p [focused text composing] Hs Hc. simpl in Hs, Hc. subst.
    cbv - [onBlur onFocus].
    destruct (onBlur p), (onFocus p); repeat split; reflexivity.
Qed.

(** X17: outside a composition every key but Tab is handed to the key
    handler of the list box, once and before anything else; when the key
    is not Escape either, nothing else happens.  Tab is never handed to
    the list box. *)
Theorem keys_reach_list_box :
  forall (p : Props T) (s : State) (key : string),
    (isComposing s = false ->
     key <> "Tab" ->
     exists rest,
       handle p (InputKeyDown key) s = Invoke (HandleInputKeyDown key) :: rest
       /\ (forall k, ~ In (HandleInputKeyDown k) (calls rest))
       /\ (key <> "Escape" -> key <> "Esc" ->
           rest = [] /\ step p (InputKeyDown key) s = s))
    /\ (forall k, ~ In (HandleInputKeyDown k)
                    (calls (handle p (InputKeyDown "Tab") s))).
Proof.
  intros p s key. split.
  - intros Hc Htab. apply String.eqb_neq in Htab.
    unfold MultiComboBox.step. cbn [MultiComboBox.handle].
    unfold keyDownOnInput, inputOnKeyDown. rewrite Hc, Htab.
    eexists. split; [reflexivity|]. split.
    + intros k. unfold containerOnKeyDown, blur.
      destruct (negb (handleInputKeyDownStops key));
        destruct ((key =? "Escape")%string || (key =? "Esc")%string);
        destruct (isFocused s), (onBlur p); simpl; intuition discriminate.
    + intros H1 H2. unfold containerOnKeyDown.
      rewrite (not_escape_key key H1 H2).
      destruct (negb (handleInputKeyDownStops key)); split; reflexivity.
  - intros k. cbn [MultiComboBox.handle].
    unfold keyDownOnInput, inputOnKeyDown, containerOnKeyDown, blur. simpl.
    destruct (isComposing s), (isFocused s), (onBlur p); simpl;
      intuition discriminate.
Qed.

(** X18: the handler of the container stops the propagation of every
    Escape keydown, also when the component is blurred and nothing else
    happens; it stops no other key. *)
Theorem escape_always_stopped :
  forall (p : Props T) (s : State) (key : string),
    (key = "Escape" \/ key = "Esc" ->
     In StopPropagation (calls (containerOnKeyDown p key s))
     /\ (isFocused s = false ->
         containerOnKeyDown p key s = [Invoke StopPropagation]
         /\ step p (ContainerKeyDown key) s = s))
    /\ (key <> "Escape" -> key <> "Esc" -> containerOnKeyDown p key s = []).
Proof.
  intros p s key. split.
  - intros Hkey. destruct (escape_key key Hkey) as [Hesc _].
    unfold MultiComboBox.step. cbn [MultiComboBox.handle].
    unfold containerOnKeyDown. rewrite Hesc. split.
    + simpl. now left.
    + intros Hs. rewrite (blur_blurred p s Hs). split; reflexivity.
  - intros H1 H2. unfold containerOnKeyDown.
    now rewrite (not_escape_key key H1 H2).
Qed.

End Lifecycle.

(** ** The markup of MultiComboBox and the position of the dropdown *)
Section Markup.

Import MultiComboBox.
Import MultiComboBoxView.

Context {T : Type}.
Variable strictEq : T -> T -> bool.
Variable convertMatchableString : string -> string.
Variable handleInputKeyDownStops : string -> bool.
Variable theme : Theme.
Variable classNames : ClassNames.

Local Abbreviation step := (step strictEq handleInputKeyDownStops).
Local Abbreviation render := (render theme classNames).

Lemma rectDepsEqb_true (a b : RectDeps) :
  rectDepsEqb a b = true <->
  rdep_calculateDropdownRect a = rdep_calculateDropdownRect b
  /\ rdep_isFocused a = rdep_isFocused b
  /\ rdep_selectedItems a = rdep_selectedItems b.
Proof.
  unfold rectDepsEqb.
  rewrite !andb_true_iff, !Nat.eqb_eq, Bool.eqb_true_iff. tauto.
Qed.

(** X19: the position of the dropdown is never calculated for a blurred
    component; for a focused one it is calculated on mount and after a
    render pass exactly when [calculateDropdownRect], the focus or the
    [selectedItems] array is another than in the previous pass, so after
    every event that opens the focus. *)
Theorem dropdown_rect_recalculated :
  forall (ref : nat) (p : Props T) (s : State),
    (forall prev, dropdownRectEffect ref p prev s = true -> isFocused s = true)
    /\ dropdownRectEffect ref p None s = isFocused s
    /\ (forall d : RectDeps,
           dropdownRectEffect ref p (Some d) s = true <->
           isFocused s = true
           /\ (rdep_calculateDropdownRect d <> ref
               \/ rdep_isFocused d <> isFocused s
               \/ rdep_selectedItems d <> selectedItemsRef p))
    /\ (forall (ref0 : nat) (p0 : Props T) (e : Event T) (s0 : State),
           isFocused s0 = false ->
           s = step p0 e s0 ->
           isFocused s = true ->
           dropdownRectEffect ref p (Some (rectDepsOf ref0 p0 s0)) s = true).
Proof.
  intros ref p s.
  assert (Hiff : forall d : RectDeps,
             dropdownRectEffect ref p (Some d) s = true <->
             isFocused s = true
             /\ (rdep_calculateDropdownRect d <> ref
                 \/ rdep_isFocused d <> isFocused s
                 \/ rdep_selectedItems d <> selectedItemsRef p)).
  { intros d. unfold dropdownRectEffect.
    destruct (rectDepsEqb d (rectDepsOf ref p s)) eqn:E.
    - apply rectDepsEqb_true in E. simpl in E. destruct E as [E1 [E2 E3]].
      split; [discriminate | intros [_ [H | [H | H]]]; contradiction].
    - split; [intros H; split; [exact H|] | tauto].
      destruct (Nat.eq_dec (rdep_calculateDropdownRect d) ref) as [E1|]; auto.
      destruct (Bool.bool_dec (rdep_isFocused d) (isFocused s)) as [E2|]; auto.
      destruct (Nat.eq_dec (rdep_selectedItems d) (selectedItemsRef p))
        as [E3|]; auto.
      assert (rectDepsEqb d (rectDepsOf ref p s) = true)
        by (apply rectDepsEqb_true; simpl; auto).
      congruence. }
  split; [|split; [reflexivity | split; [exact Hiff|]]].
  - intros [d|] H; [now apply Hiff in H | exact H].
  - intros ref0 p0 e s0 Hs0 _ Hs. apply Hiff. split; [exact Hs|].
    right. left. simpl. congruence.
Qed.

(** X20: the placeholder is shown exactly when nothing is selected, the
    placeholder text is not empty and the component is blurred; the text
    shown is the prop, and the input is hidden and the control not
    expanded then. *)
Theorem placeholder_shown_iff :
  forall (p : Props T) (m : Markup) (s : State),
    ((exists className text,
         placeholder_slot (render p m s) = SlotPlaceholder className text)
     <-> selectedItems p = [] /\ placeholder m <> "" /\ isFocused s = false)
    /\ (forall className text,
           placeholder_slot (render p m s) = SlotPlaceholder className text ->
           text = placeholder m
           /\ inputWrapper_className (render p m s) = Some "hidden"
           /\ aria_expanded (render p m s) = false).
Proof.
  intros p m s. cbn [placeholder_slot inputWrapper_className aria_expanded
                       MultiComboBoxView.render].
  unfold renderPlaceholder. rewrite <- truthy_true.
  destruct (selectedItems p) as [|x l]; simpl.
  - destruct (Js.truthy (placeholder m)), (isFocused s); simpl; split;
      try (split; [intros [c [t H]]; discriminate H
                  | intros [_ [H1 H2]]; discriminate]);
      try (intros c t H; discriminate H).
    + split; [auto | eauto].
    + intros c t H. injection H as _ <-. auto.
  - split.
    + split; [intros [c [t H]]; discriminate H | intros [H _]; discriminate H].
    + intros c t H. discriminate H.
Qed.



End Markup.

(** ** More on FormGroup *)
Section FormGroupOutput.

Import FormGroup.
Import FormGroupParts.

Variable theme : Theme.
Variable useId : option string -> string.

Local Abbreviation FormGroup := (FormGroup theme useId).

Lemma mapi_from_length {A B : Type} (f : A -> nat -> B) (l : list A) :
  forall k, List.length (Js.mapi_from f k l) = List.length l.
Proof.
  induction l as [|a l IH]; intros k; simpl; [reflexivity | now rewrite IH].
Qed.

Lemma mapi_from_nth {A B : Type} (f : A -> nat -> B) (l : list A) :
  forall k i x,
    nth_error l i = Some x ->
    nth_error (Js.mapi_from f k l) i = Some (f x (k + i)).
Proof.
  induction l as [|a l IH]; intros k i x H.
  - destruct i; discriminate H.
  - destruct i as [|i]; simpl in *.
    + injection H as ->. now rewrite Nat.add_0_r.
    + rewrite (IH (Datatypes.S k) i x H). f_equal. f_equal. lia.
Qed.

Lemma getProp_snoc (name k : string) (v : PropValue)
      (props : list (string * PropValue)) :
  getProp name (props ++ [(k, v)])
  = if (k =? name)%string then v else getProp name props.
Proof.
  unfold getProp. rewrite fold_left_app. reflexivity.
Qed.

(** X22: an array of error messages is rendered as one [ErrorMessage]
    element for each message, in the order of the messages, with the
    index as its key, the message as the text of its [span], and an icon
    in the colour [TEXT_DISABLED] when [disabled] is true and [DANGER]
    otherwise; the empty array renders no element. *)
Theorem error_messages_in_order :
  forall (p : Props) (messages : list string),
    errorMessages p = ErrArray messages ->
    List.length (nodesOf (errorSlotOf (FormGroup p))) = List.length messages
    /\ (forall (i : nat) (message : string),
           nth_error messages i = Some message ->
           exists node,
             nth_error (nodesOf (errorSlotOf (FormGroup p))) i = Some node
             /\ typeOf node = Some "ErrorMessage"
             /\ keyOf node = Some i
             /\ errorTextOf node = RString message
             /\ getProp "color" (propsOf (errorIconOf node))
                = PString (match disabled p with
                           | Some true => TEXT_DISABLED theme
                           | _ => DANGER theme
                           end)).
Proof.
  intros p messages Herr.
  assert (Hslot : errorSlotOf (FormGroup p)
                  = RArray (Js.mapi (renderErrorMessage theme p) messages)).
  { unfold errorSlotOf, FormGroup.FormGroup. cbn [childrenOf nth].
    unfold renderErrorMessages. now rewrite Herr. }
  rewrite Hslot. cbn [nodesOf]. unfold Js.mapi. split.
  - apply mapi_from_length.
  - intros i message Hi. eexists. split.
    + apply mapi_from_nth. exact Hi.
    + simpl. repeat split; reflexivity.
Qed.

Lemma getProp_absent (name : string) (o : list (string * string)) :
  Js.array_includes (map fst o) name = false ->
  forall found,
    fold_left
      (fun found kv => if (fst kv =? name)%string then snd kv else found)
      (spread o) found = found.
Proof.
  induction o as [|[k x] o IH]; intros Habsent found; [reflexivity|].
  unfold Js.array_includes in Habsent. simpl in Habsent.
  apply orb_false_iff in Habsent. destruct Habsent as [Hk Ho].
  simpl. rewrite Hk. now apply IH.
Qed.

Lemma getProp_present (name v : string) (o : list (string * string)) :
  distinctNames (map fst o) = true ->
  In (name, v) o ->
  forall found,
    fold_left
      (fun found kv => if (fst kv =? name)%string then snd kv else found)
      (spread o) found = PString v.
Proof.
  induction o as [|[k x] o IH]; intros Hdistinct Hin found; [destruct Hin|].
  simpl in Hdistinct. apply andb_true_iff in Hdistinct.
  destruct Hdistinct as [Hk Ho]. apply negb_true_iff in Hk.
  destruct Hin as [Heq | Hin].
  - injection Heq as -> ->. simpl. rewrite String.eqb_refl.
    now apply getProp_absent.
  - simpl. now apply IH.
Qed.

(** X23: the props of the caller are spread first on the wrapper.  Each
    of them reaches the wrapper with the value the caller gave, unless it
    is named [themes] or [aria-labelledby], which the component writes
    after them, and so does the role; the [themes] of the wrapper is the
    theme of the component whatever the caller spread, and its
    [className] is the class name of the caller, a space and the class of
    the disabled state. *)
Theorem rest_props_cannot_override :
  forall p : Props,
    isRestOfProps p = true ->
    (forall name v : string,
        In (name, v) (rest p) ->
        name <> "themes" -> name <> "aria-labelledby" ->
        getProp name (propsOf (FormGroup p)) = PString v)
    /\ (forall r : string,
           role p = Some r ->
           getProp "role" (propsOf (FormGroup p)) = PString r)
    /\ getProp "themes" (propsOf (FormGroup p)) = PTheme theme
    /\ getProp "className" (propsOf (FormGroup p))
       = PString ((match className p with Some c => c | None => "" end)
                  ++ " " ++ disabledClass p)%string.
Proof.
  intros p Hrest. unfold isRestOfProps in Hrest.
  apply andb_true_iff in Hrest. destruct Hrest as [Hdistinct Hnames].
  rewrite forallb_forall in Hnames.
  unfold FormGroup.FormGroup. cbn [propsOf].
  set (c := PString _). set (a := if isRoleGroup p then _ else _).
  change (restProps p ++ [("className", c); ("themes", PTheme theme);
                          ("aria-labelledby", a)])
    with (restProps p ++ [("className", c)] ++ [("themes", PTheme theme)]
          ++ [("aria-labelledby", a)]).
  rewrite !app_assoc. split; [|split; [|split]].
  - intros name v Hin H2 H3.
    specialize (Hnames (name, v) Hin). apply negb_true_iff in Hnames.
    unfold Js.array_includes in Hnames. cbn [fst existsb destructured] in Hnames.
    repeat (apply orb_false_iff in Hnames; destruct Hnames as [? Hnames]).
    rewrite !getProp_snoc.
    apply not_eq_sym, String.eqb_neq in H2, H3.
    rewrite H2, H3.
    assert (Hc : ("className" =? name)%string = false) by assumption.
    rewrite Hc. unfold getProp, restProps. rewrite fold_left_app.
    now apply getProp_present.
  - intros r Hr. rewrite !getProp_snoc. cbn [String.eqb Ascii.eqb Bool.eqb].
    unfold getProp, restProps. rewrite Hr, fold_left_app.
    cbn [fold_left app fst snd]. rewrite String.eqb_refl.
    apply getProp_absent.
    destruct (Js.array_includes (map fst (rest p)) "role") eqn:E;
      [|reflexivity].
    apply array_includes_In, in_map_iff in E. destruct E as [kv [Hk Hin]].
    specialize (Hnames kv Hin). rewrite Hk in Hnames. discriminate Hnames.
  - rewrite !getProp_snoc. reflexivity.
  - rewrite !getProp_snoc. reflexivity.
Qed.

(** X24: an optional prop left out behaves as its default: [innerMargin]
    as ['XS'], [statusLabelProps] as the empty array, [className] as the
    empty string and [disabled] as [false]. *)
Theorem omitted_props_are_defaults :
  forall p : Props, FormGroup (withDefaults p) = FormGroup p.
Proof.
  intros p. unfold FormGroup.FormGroup, withDefaults, restProps, renderLabel,
    renderStatusLabels, renderHelpMessage, renderErrorMessages,
    renderErrorMessage, disabledClass, isRoleGroup, managedLabelId.
  cbn [title titleType htmlFor labelId innerMargin statusLabelProps
       helpMessage errorMessages disabled className children role rest].
  destruct (innerMargin p), (statusLabelProps p), (className p),
    (disabled p) as [[|]|]; reflexivity.
Qed.

(** X25: no status label is rendered without [statusLabelProps] or with
    the empty array; otherwise one [StyledStatusLabel] is rendered for
    each entry, in order and keyed by its index, and its [themes] prop is
    the theme of the component whatever the entry holds. *)
Theorem status_labels_rendered :
  forall p : Props,
    (statusLabelProps p = None \/ statusLabelProps p = Some [] ->
     statusSlotOf (FormGroup p) = RBoolean false)
    /\ (forall (first : list (string * string))
               (others : list (list (string * string))),
           statusLabelProps p = Some (first :: others) ->
           typeOf (statusSlotOf (FormGroup p)) = Some "StatusLabels"
           /\ exists labels,
               childrenOf (statusSlotOf (FormGroup p)) = [RArray labels]
               /\ List.length labels = Datatypes.S (List.length others)
               /\ (forall i statusLabelProp,
                      nth_error (first :: others) i = Some statusLabelProp ->
                      exists node,
                        nth_error labels i = Some node
                        /\ keyOf node = Some i
                        /\ getProp "themes" (propsOf node) = PTheme theme
                        /\ (forall name, name <> "themes" ->
                                         getProp name (propsOf node)
                                         = getProp name (spread statusLabelProp)))).
Proof.
  intros p. unfold statusSlotOf, FormGroup.FormGroup.
  cbn [childrenOf nth]. unfold renderStatusLabels. split.
  - intros [-> | ->]; reflexivity.
  - intros first others ->. cbn [List.length Nat.ltb Nat.leb].
    split; [reflexivity|]. eexists. split; [reflexivity|]. split.
    + unfold Js.mapi. now rewrite mapi_from_length.
    + intros i statusLabelProp Hi. eexists. split.
      * unfold Js.mapi. apply mapi_from_nth. exact Hi.
      * cbn [keyOf propsOf Nat.add]. split; [reflexivity|].
        rewrite !getProp_snoc. split; [reflexivity|].
        intros name Hname. apply not_eq_sym, String.eqb_neq in Hname.
        now rewrite getProp_snoc, Hname.
Qed.

(** X26: a truthy [helpMessage] is rendered inside a [HelpMessage]
    element; a falsy one is put in the place of that element as it is,
    and no [HelpMessage] element is rendered. *)
Theorem help_message_slot :
  forall p : Props,
    (truthy (helpMessage p) = true ->
     typeOf (helpSlotOf (FormGroup p)) = Some "HelpMessage"
     /\ childrenOf (helpSlotOf (FormGroup p)) = [helpMessage p])
    /\ (truthy (helpMessage p) = false ->
        helpSlotOf (FormGroup p) = helpMessage p
        /\ typeOf (helpSlotOf (FormGroup p)) = None).
Proof.
  intros p. unfold helpSlotOf, FormGroup.FormGroup. cbn [childrenOf nth].
  unfold renderHelpMessage, and_. split; intros H; rewrite H.
  - split; reflexivity.
  - split; [reflexivity|].
    destruct (helpMessage p); simpl in H; try discriminate H; reflexivity.
Qed.

End FormGroupOutput.

(** ** More of the components at work *)
Section MoreExamples.

Import MultiComboBox.
Import MultiComboBoxView.
Import Sample.
Import SampleView.

Local Abbreviation step := (step Nat.eqb stops).
Local Abbreviation handle := (handle Nat.eqb stops).

Lemma sample_items_NoDup : NoDup [apple; banana; cherry].
Proof.
  repeat constructor; cbv; intuition discriminate.
Defined.

Lemma candidates_in_item_order_witness :
  NoDup (items (props [banana] 0))
  /\ NoDup (filteredItems lower (props [banana] 0) (state true false "")).
Proof.
  split; [exact sample_items_NoDup|].
  exact (proj1 (proj2 (candidates_in_item_order lower (props [banana] 0)
                         (state true false ""))) sample_items_NoDup).
Defined.

Lemma candidates_all_items_witness :
  inputValue (props [] 0) (state true false "") = ""
  /\ filteredItems lower (props [] 0) (state true false "")
     = [apple; banana; cherry].
Proof.
  split; [reflexivity|].
  apply (candidates_all_items lower (props [] 0) (state true false ""));
    [reflexivity | intros item _ H; exact H].
Defined.

Lemma hasNoMatch_iff_witness :
  filteredItems lower (props [apple; banana; cherry] 0) (state true false "")
  = []
  /\ lb_hasNoMatch
       (useListBoxArgs lower (props [apple; banana; cherry] 0)
          (state true false "")) = true.
Proof.
  split; [reflexivity|].
  apply (proj2 (hasNoMatch_iff lower (props [apple; banana; cherry] 0)
                  (state true false ""))).
  split; [reflexivity | right; reflexivity].
Defined.

Lemma listbox_flags_exclusive_witness :
  lb_items (useListBoxArgs lower (props [banana] 0) (state true false "banana"))
  = []
  /\ lb_isAddable
       (useListBoxArgs lower (props [banana] 0) (state true false "banana"))
     || lb_isDuplicate
          (useListBoxArgs lower (props [banana] 0) (state true false "banana"))
     || lb_hasNoMatch
          (useListBoxArgs lower (props [banana] 0) (state true false "banana"))
     = true.
Proof.
  split; [reflexivity|].
  apply (proj2 (proj2 (proj2 (listbox_flags_exclusive lower (props [banana] 0)
                                (state true false "banana"))))).
  reflexivity.
Defined.

Lemma duplicate_flag_iff_selected_witness :
  lb_isDuplicate
    (useListBoxArgs lower (props [banana] 0) (state true false "banana")) = true
  /\ In (inputValue (props [banana] 0) (state true false "banana"))
       (selectedLabels (props [banana] 0)).
Proof.
  assert (H : lb_isDuplicate
                (useListBoxArgs lower (props [banana] 0)
                   (state true false "banana")) = true) by reflexivity.
  split; [exact H|].
  exact (proj2 (proj2 (proj2 (proj1 (duplicate_flag_iff_selected lower
                                       (props [banana] 0)
                                       (state true false "banana")) H)))).
Defined.

Lemma select_feedback_candidates_witness :
  reportedSelection (listBoxOnSelect (props [apple] 0) banana)
  = Some (selectedItems (props [apple; banana] 1))
  /\ filteredItems lower (props [apple; banana] 1) (state true false "")
     = filter (fun c => negb (label c =? label banana)%string)
         (filteredItems lower (props [apple] 0) (state true false ""))
  /\ ~ In banana
       (filteredItems lower (props [apple; banana] 1) (state true false "")).
Proof.
  split; [reflexivity|].
  apply (select_feedback_candidates lower (props [apple] 0)
           (props [apple; banana] 1) (state true false "")
           (state true false "") banana); reflexivity.
Defined.

Lemma delete_feedback_candidates_witness :
  reportedSelection (selectedItemOnDelete Nat.eqb (props [apple; banana] 0) apple)
  = Some (selectedItems (props [banana] 1))
  /\ (forall c,
         In c (filteredItems lower (props [apple; banana] 0)
                 (state true false "")) ->
         In c (filteredItems lower (props [banana] 1) (state true false ""))).
Proof.
  split; [reflexivity|].
  apply (delete_feedback_candidates Nat.eqb lower (props [apple; banana] 0)
           (props [banana] 1) (state true false "") (state true false "")
           apple); reflexivity.
Defined.

Lemma select_then_delete_round_trip_witness :
  reportedSelection (listBoxOnSelect (props [apple] 0) banana)
  = Some (selectedItems (props [apple; banana] 1))
  /\ reportedSelection
       (selectedItemOnDelete Nat.eqb (props [apple; banana] 1) banana)
     = Some (selectedItems (props [apple] 0)).
Proof.
  split; [reflexivity|].
  apply (select_then_delete_round_trip Nat.eqb (props [apple] 0)
           (props [apple; banana] 1) banana);
    [reflexivity | reflexivity | reflexivity |].
  intros x [<- | []]. reflexivity.
Defined.

Lemma delete_idempotent_witness :
  reportedSelection (selectedItemOnDelete Nat.eqb (props [apple; banana] 0) apple)
  = Some (selectedItems (props [banana] 1))
  /\ reportedSelection (selectedItemOnDelete Nat.eqb (props [banana] 1) apple)
     = Some (selectedItems (props [banana] 1)).
Proof.
  split; [reflexivity|].
  apply (delete_idempotent Nat.eqb (props [apple; banana] 0) (props [banana] 1)
           apple); reflexivity.
Defined.

Lemma delete_needs_reflexive_value_witness :
  (forall v, nanEq v (value (item "nan" 0)) = false)
  /\ reportedSelection
       (selectedItemOnDelete nanEq (props [apple; item "nan" 0] 0)
          (item "nan" 0))
     = Some [apple; item "nan" 0].
Proof.
  assert (H : forall v, nanEq v (value (item "nan" 0)) = false)
    by (intros [|v]; reflexivity).
  split; [exact H|].
  exact (delete_needs_reflexive_value nanEq (props [apple; item "nan" 0] 0)
           (item "nan" 0) eq_refl H).
Defined.

Lemma selection_is_not_stored_witness :
  step (props [apple] 0) (ListBoxSelect banana) (state true false "b")
  = state true false "b"
  /\ step (props [apple] 0) (ItemDelete apple) (state true false "b")
     = state true false "b".
Proof.
  destruct (selection_is_not_stored Nat.eqb stops (props [apple] 0) banana
              (state true false "b")) as [H1 _].
  destruct (selection_is_not_stored Nat.eqb stops (props [apple] 0) apple
              (state true false "b")) as [_ [H2 _]].
  split; [exact H1 | exact H2].
Defined.

Lemma typing_uncontrolled_witness :
  controlledInputValue (props [apple] 0) = None
  /\ inputValue (props [apple] 0)
       (step (props [apple] 0) (InputChange "ban") (state true false "ba"))
     = "ban"
  /\ inputResetEffect (props [apple] 0)
       (Some (depsOf (props [apple] 0) (state true false "ba")))
       (step (props [apple] 0) (InputChange "ban") (state true false "ba"))
     = [].
Proof.
  split; [reflexivity|].
  destruct (typing_uncontrolled Nat.eqb stops (props [apple] 0)
              (props [apple] 0) (state true false "ba") "ban" eq_refl)
    as [_ [H1 [_ [_ H2]]]].
  split; [exact H1 | exact (H2 eq_refl eq_refl)].
Defined.

Lemma focus_change_clears_text_witness :
  isFocused (step (props [] 0) OuterClick (state true false "ban"))
  <> isFocused (state true false "ban")
  /\ inputValue (props [] 0)
       (commit (step (props [] 0) OuterClick (state true false "ban"))
          (inputResetEffect (props [] 0)
             (Some (depsOf (props [] 0) (state true false "ban")))
             (step (props [] 0) OuterClick (state true false "ban")))) = "".
Proof.
  assert (H : isFocused (step (props [] 0) OuterClick (state true false "ban"))
              <> isFocused (state true false "ban"))
    by (apply Bool.eqb_false_iff; reflexivity).
  split; [exact H|].
  exact (focus_change_clears_text Nat.eqb stops (props [] 0) (props [] 0)
           OuterClick (state true false "ban") eq_refl H).
Defined.

Lemma click_focuses_once_witness :
  isFocused (state false false "") = false
  /\ MultiComboBox.disabled (props [] 0) = false
  /\ isFocused (step (props [] 0) TimerFired (state false false "")) = true
  /\ onFocusCalls (handle (props [] 0) TimerFired (state false false "")) = 1.
Proof.
  split; [reflexivity | split; [reflexivity|]].
  destruct (click_focuses_once Nat.eqb stops (props [] 0) (state false false "")
              eq_refl eq_refl) as [_ [_ [H1 [H2 _]]]].
  split; [exact H1 | exact H2].
Defined.

Lemma click_ignored_iff_witness :
  containerOnClick (props [apple] 0) true (state false false "") = []
  /\ containerOnClick (props [apple] 0) false (state true false "") = [].
Proof.
  split.
  - apply (proj1 (click_ignored_iff Nat.eqb stops (props [apple] 0) true
                    (state false false ""))).
    left. reflexivity.
  - apply (proj1 (click_ignored_iff Nat.eqb stops (props [apple] 0) false
                    (state true false ""))).
    right. right. reflexivity.
Defined.

Lemma composition_flag_survives_blur_witness :
  isFocused (state true true "") = true
  /\ isComposing (state true true "") = true
  /\ step (props [] 0) (InputKeyDown "Tab")
       (step (props [] 0) TimerFired
          (step (props [] 0) OuterClick (state true true "")))
     = step (props [] 0) TimerFired
         (step (props [] 0) OuterClick (state true true "")).
Proof.
  split; [reflexivity | split; [reflexivity|]].
  destruct (proj2 (composition_flag_survives_blur Nat.eqb stops)
              (props [] 0) (state true true "") eq_refl eq_refl)
    as [_ [_ [H _]]].
  exact H.
Defined.

Lemma keys_reach_list_box_witness :
  isComposing (state true false "") = false
  /\ "ArrowDown" <> "Tab"
  /\ exists rest,
      handle (props [] 0) (InputKeyDown "ArrowDown") (state true false "")
      = Invoke (HandleInputKeyDown "ArrowDown") :: rest
      /\ rest = []
      /\ step (props [] 0) (InputKeyDown "ArrowDown") (state true false "")
         = state true false "".
Proof.
  assert (Htab : "ArrowDown" <> "Tab") by (apply String.eqb_neq; reflexivity).
  split; [reflexivity | split; [exact Htab|]].
  destruct (proj1 (keys_reach_list_box Nat.eqb stops (props [] 0)
                     (state true false "") "ArrowDown") eq_refl Htab)
    as [rest [H1 [_ H2]]].
  exists rest. split; [exact H1|].
  apply H2; apply String.eqb_neq; reflexivity.
Defined.

Lemma escape_always_stopped_witness :
  isFocused (state false false "") = false
  /\ containerOnKeyDown (props [] 0) "Escape" (state false false "")
     = [Invoke StopPropagation]
  /\ containerOnKeyDown (props [] 0) "Enter" (state false false "") = [].
Proof.
  split; [reflexivity|].
  destruct (escape_always_stopped Nat.eqb stops (props [] 0)
              (state false false "") "Escape") as [H _].
  destruct (escape_always_stopped Nat.eqb stops (props [] 0)
              (state false false "") "Enter") as [_ H'].
  split.
  - exact (proj1 (proj2 (H (or_introl eq_refl)) eq_refl)).
  - apply H'; apply String.eqb_neq; reflexivity.
Defined.

Lemma dropdown_rect_recalculated_witness :
  isFocused (state false false "") = false
  /\ isFocused (step (props [] 0) TimerFired (state false false "")) = true
  /\ dropdownRectEffect 7 (props [] 0)
       (Some (rectDepsOf 7 (props [] 0) (state false false "")))
       (step (props [] 0) TimerFired (state false false "")) = true
  /\ dropdownRectEffect 7 (props [apple] 1)
       (Some (rectDepsOf 7 (props [] 0) (state true false "")))
       (state true false "") = true.
Proof.
  split; [reflexivity | split; [reflexivity|]].
  split.
  - destruct (dropdown_rect_recalculated Nat.eqb stops 7 (props [] 0)
                (step (props [] 0) TimerFired (state false false "")))
      as [_ [_ [_ H]]].
    exact (H 7 (props [] 0) TimerFired (state false false "")
             eq_refl eq_refl eq_refl).
  - destruct (dropdown_rect_recalculated Nat.eqb stops 7 (props [apple] 1)
                (state true false "")) as [_ [_ [H _]]].
    apply (proj2 (H (rectDepsOf 7 (props [] 0) (state true false "")))).
    split; [reflexivity|]. right. right.
    apply Nat.eqb_neq. reflexivity.
Defined.

Lemma placeholder_shown_iff_witness :
  selectedItems (props [] 0) = []
  /\ placeholder (markup "Choose a fruit") <> ""
  /\ isFocused (state false false "") = false
  /\ exists className text,
      placeholder_slot
        (render theme classNames (props [] 0) (markup "Choose a fruit")
           (state false false ""))
      = SlotPlaceholder className text.
Proof.
  assert (H : placeholder (markup "Choose a fruit") <> "")
    by (apply String.eqb_neq; reflexivity).
  split; [reflexivity | split; [exact H | split; [reflexivity|]]].
  apply (proj1 (placeholder_shown_iff theme classNames (props [] 0)
                  (markup "Choose a fruit") (state false false ""))).
  split; [reflexivity | split; [exact H | reflexivity]].
Defined.


Lemma error_messages_in_order_witness :
  FormGroup.errorMessages (group FormGroup.RUndefined)
  = FormGroup.ErrArray ["too short"; "not unique"]
  /\ List.length
       (FormGroupParts.nodesOf
          (FormGroup.errorSlotOf
             (FormGroup.FormGroup Sample.theme useId (group FormGroup.RUndefined))))
     = 2.
Proof.
  split; [reflexivity|].
  exact (proj1 (error_messages_in_order Sample.theme useId
                  (group FormGroup.RUndefined) ["too short"; "not unique"]
                  eq_refl)).
Defined.

Lemma rest_props_cannot_override_witness :
  FormGroupParts.isRestOfProps (group FormGroup.RUndefined) = true
  /\ FormGroup.getProp "data-id"
       (FormGroup.propsOf
          (FormGroup.FormGroup Sample.theme useId (group FormGroup.RUndefined)))
     = FormGroup.PString "42"
  /\ FormGroup.getProp "role"
       (FormGroup.propsOf
          (FormGroup.FormGroup Sample.theme useId (group FormGroup.RUndefined)))
     = FormGroup.PString "group"
  /\ FormGroup.getProp "className"
       (FormGroup.propsOf
          (FormGroup.FormGroup Sample.theme useId (group FormGroup.RUndefined)))
     = FormGroup.PString "mine disabled".
Proof.
  split; [reflexivity|].
  destruct (rest_props_cannot_override Sample.theme useId
              (group FormGroup.RUndefined) eq_refl) as [Hrest [Hrole [_ Hc]]].
  split; [|split; [exact (Hrole "group" eq_refl) | exact Hc]].
  apply (Hrest "data-id" "42").
  - left. reflexivity.
  - apply String.eqb_neq. reflexivity.
  - apply String.eqb_neq. reflexivity.
Defined.

Lemma status_labels_rendered_witness :
  FormGroup.statusLabelProps (formGroup None FormGroup.ErrUndefined) = None
  /\ FormGroupParts.statusSlotOf
       (FormGroup.FormGroup Sample.theme useId
          (formGroup None FormGroup.ErrUndefined))
     = FormGroup.RBoolean false
  /\ FormGroupParts.typeOf
       (FormGroupParts.statusSlotOf
          (FormGroup.FormGroup Sample.theme useId (group FormGroup.RUndefined)))
     = Some "StatusLabels".
Proof.
  split; [reflexivity|]. split.
  - apply (proj1 (status_labels_rendered Sample.theme useId
                    (formGroup None FormGroup.ErrUndefined))).
    left. reflexivity.
  - exact (proj1 (proj2 (status_labels_rendered Sample.theme useId
                           (group FormGroup.RUndefined))
                    [("type", "required"); ("themes", "mine")]
                    [[("type", "done")]] eq_refl)).
Defined.

Lemma help_message_slot_witness :
  FormGroup.truthy (FormGroup.helpMessage (group (FormGroup.RNumber 0))) = false
  /\ FormGroupParts.helpSlotOf
       (FormGroup.FormGroup Sample.theme useId (group (FormGroup.RNumber 0)))
     = FormGroup.RNumber 0
  /\ FormGroup.truthy (FormGroup.helpMessage (group (FormGroup.RString "hint")))
     = true
  /\ FormGroup.childrenOf
       (FormGroupParts.helpSlotOf
          (FormGroup.FormGroup Sample.theme useId
             (group (FormGroup.RString "hint"))))
     = [FormGroup.RString "hint"].
Proof.
  split; [reflexivity|]. split.
  - exact (proj1 (proj2 (help_message_slot Sample.theme useId
                           (group (FormGroup.RNumber 0))) eq_refl)).
  - split; [reflexivity|].
    exact (proj2 (proj1 (help_message_slot Sample.theme useId
                           (group (FormGroup.RString "hint"))) eq_refl)).
Defined.

End MoreExamples.
